(** * f1_visualizer.py: the aggregation and projection pipeline

    A shallow embedding of the script [f1_visualizer.py] and the proofs of
    the properties its specification states.

    Modelling decisions, all of them about pandas and Streamlit, on which
    the script is built:

    - a data frame is the list of its rows, in file order; a Series is an
      association list from index label to value, in index order;
    - numbers are exact rationals ([Q]): sums, the division and the
      multiplication by 20 are the exact ones, and "equal" on numbers is
      [Qeq] ([==]).  Integer counts ([size], the pivot table after
      [astype(int)]) are in [Z];
    - a missing number (NaN) is [None];
    - the columns year, driver, constructor and points hold a value in
      every row (an integer, two strings and a number); the position
      column is the only one with missing or non-numeric cells;
    - [groupby] and [pivot_table] return their keys sorted and without
      duplicates; [nlargest] keeps ties in index order;
    - the script itself is a sequence of statements on a store of pandas
      objects, writing to the page; [os.path.exists], [pd.read_csv] and
      the number parser of [pd.to_numeric] are inputs of the run. *)

From Stdlib Require Import String Ascii.
From Stdlib Require Import List ZArith QArith Qround Qreduction Bool Lia Lqa
  Permutation Sorted Setoid Morphisms.
From Stdlib Require Import PrimInt63 Uint63 PrimFloat SpecFloat FloatOps.
Import ListNotations.

(** A decimal literal stands for the nearest float64, as in Python. *)
Set Warnings "-inexact-float".

Local Open Scope Z_scope.

(** ** Keys of a grouping *)

(** What [groupby] needs of a key: equality and the order keys are listed in. *)
Class Key (K : Type) := {
  key_eq_dec : forall x y : K, {x = y} + {x <> y};
  key_leb : K -> K -> bool
}.

#[export] Instance Key_string : Key string :=
  {| key_eq_dec := string_dec; key_leb := String.leb |}.

#[export] Instance Key_Z : Key Z :=
  {| key_eq_dec := Z.eq_dec; key_leb := Z.leb |}.

Definition Q_eq_dec (x y : Q) : {x = y} + {x <> y}.
Proof. decide equality; [apply Pos.eq_dec | apply Z.eq_dec]. Defined.

(** Numeric labels are kept in lowest terms, so that equal numbers are
    equal labels. *)
#[export] Instance Key_Q : Key Q :=
  {| key_eq_dec := Q_eq_dec; key_leb := Qle_bool |}.

Definition pair_eq_dec {A B} `{Key A} `{Key B} (x y : A * B) : {x = y} + {x <> y}.
Proof. decide equality; apply key_eq_dec. Defined.

(** Lexicographic order on a two-level key, as in [groupby(['driver', 'year'])]. *)
#[export] Instance Key_pair {A B} `{Key A} `{Key B} : Key (A * B) :=
  {| key_eq_dec := pair_eq_dec;
     key_leb := fun x y =>
       if key_eq_dec (fst x) (fst y) then key_leb (snd x) (snd y)
       else key_leb (fst x) (fst y) |}.

Definition key_eqb {K} `{Key K} (x y : K) : bool :=
  if key_eq_dec x y then true else false.

(** ** Sorting *)

Section Sorting.
Context {A : Type}.
(** [before x y]: [x], met first, stays in front of [y]. *)
Variable before : A -> A -> bool.

Fixpoint insert (x : A) (l : list A) : list A :=
  match l with
  | [] => [x]
  | y :: l' => if before x y then x :: l else y :: insert x l'
  end.

Definition isort (l : list A) : list A := fold_right insert [] l.

Definition in_order (x y : A) : Prop := before x y = true.
End Sorting.

(** ** Series *)

Definition Series (K V : Type) := list (K * V).

Definition index {K V} (s : Series K V) : list K := map fst s.

Fixpoint lookup {K V} `{Key K} (k : K) (s : Series K V) : option V :=
  match s with
  | [] => None
  | (k', v) :: s' => if key_eq_dec k k' then Some v else lookup k s'
  end.

Definition Qsum (l : list Q) : Q := fold_right Qplus (0#1)%Q l.
Definition Zsum (l : list Z) : Z := fold_right Z.add 0 l.

(** [sort_values(ascending=False)]: by value, largest first.  Equal values
    stay in the order they had, as [nlargest] leaves them; no proof below
    depends on the order of equal values. *)
Definition sort_values_desc {K} (s : Series K Q) : Series K Q :=
  isort (fun x y => Qle_bool (snd y) (snd x)) s.


Definition head {A} (n : nat) (l : list A) : list A := firstn n l.

(** [nlargest(n)]: the [n] largest values, largest first. *)
Definition nlargest {K} (n : nat) (s : Series K Q) : Series K Q :=
  head n (sort_values_desc s).

(** ** Grouping *)

Section GroupBy.
Context {R K : Type} `{Key K}.
Variable key : R -> K.

(** The group labels: the keys that occur, sorted, each once. *)
Definition group_keys (rows : list R) : list K :=
  isort key_leb (nodup key_eq_dec (map key rows)).

Definition group (k : K) (rows : list R) : list R :=
  filter (fun r => key_eqb (key r) k) rows.

(** [groupby(key)[col].sum()] *)
Definition groupby_sum (col : R -> Q) (rows : list R) : Series K Q :=
  map (fun k => (k, Qsum (map col (group k rows)))) (group_keys rows).

(** [groupby(key).size()] *)
Definition groupby_size (rows : list R) : Series K Z :=
  map (fun k => (k, Z.of_nat (length (group k rows)))) (group_keys rows).
End GroupBy.

(** ** The data set *)

(** A race result, as the script holds it after loading. *)
Record Row := {
  year : Z;
  driver : string;
  constructor : string;
  position : option Q;
  points : Q
}.

Definition DataFrame := list Row.

Definition isin {K} `{Key K} (l : list K) (k : K) : bool :=
  if in_dec key_eq_dec k l then true else false.

(** ** Top 6 drivers by total points (lines 59-60) *)

Definition driver_points (df : DataFrame) : Series string Q :=
  groupby_sum driver points df.

Definition top_drivers (df : DataFrame) : list string :=
  index (nlargest 6 (driver_points df)).

(** Line 60, for the index [top] that line 59 left in [top_drivers]. *)
Definition driver_trend_of (top : list string) (df : DataFrame)
  : Series (string * Z) Q :=
  groupby_sum (fun r => (driver r, year r)) points
    (filter (fun r => isin top (driver r)) df).

Definition driver_trend (df : DataFrame) : Series (string * Z) Q :=
  driver_trend_of (top_drivers df) df.

(** ** Constructor trends (lines 63-65) *)

Definition cons_trend_all (df : DataFrame) : Series (string * Z) Q :=
  groupby_sum (fun r => (constructor r, year r)) points df.

(** Line 64, on the table line 63 left in [cons_trend]. *)
Definition top_constructors_of (trend : Series (string * Z) Q) : list string :=
  index (nlargest 6
    (groupby_sum (fun e : (string * Z) * Q => fst (fst e)) snd trend)).

(** Line 65. *)
Definition cons_trend_of (top : list string) (trend : Series (string * Z) Q)
  : Series (string * Z) Q :=
  filter (fun e => isin top (fst (fst e))) trend.

Definition top_constructors (df : DataFrame) : list string :=
  top_constructors_of (cons_trend_all df).

Definition cons_trend (df : DataFrame) : Series (string * Z) Q :=
  cons_trend_of (top_constructors df) (cons_trend_all df).

(** ** Exceptions *)

Inductive Exn :=
| KeyError (name : string)
| LengthMismatch (has given : nat)
| ReadError (msg : string)
| TypeError
| ValueError
| OverflowError.

Inductive Result (A : Type) :=
| Ok (a : A)
| Raise (e : Exn).
Arguments Ok {A} a.
Arguments Raise {A} e.

Definition rbind {A B} (r : Result A) (f : A -> Result B) : Result B :=
  match r with
  | Ok a => f a
  | Raise e => Raise e
  end.

(** [nlargest] takes numbers only.  A file without rows gives [read_csv]
    nothing to tell the type of a column by: its columns are of dtype
    object, and so is a sum over them, which [nlargest] refuses with a
    [TypeError]. *)
Definition numeric_dtype {R} (rows : list R) : Result unit :=
  match rows with
  | [] => Raise TypeError
  | _ :: _ => Ok tt
  end.

(** ** Podium heatmap (lines 68-77) *)

(** [Series.isin(values)] on a numeric column: a missing value is in no list. *)
Definition isin_num (values : list Q) (p : option Q) : bool :=
  match p with
  | Some q => existsb (Qeq_bool q) values
  | None => false
  end.

Definition podium (df : DataFrame) : DataFrame :=
  filter (fun r => isin_num [1#1; 2#1; 3#1]%Q (position r)) df.

(** The three places, as labels. *)
Definition places : list Q := [1#1; 2#1; 3#1]%Q.

(** [notna()] on the position of a row. *)
Definition has_position (r : Row) : bool :=
  match position r with Some _ => true | None => false end.

Inductive Label :=
| LNum (q : Q)
| LStr (s : string).

Definition Label_eq_dec (x y : Label) : {x = y} + {x <> y}.
Proof. decide equality; [apply Q_eq_dec | apply string_dec]. Defined.

(** A table of integers: the column labels, and per index label the cells
    of its row, one per column. *)
Record Table := {
  columns : list Label;
  rows : list (string * list Z)
}.

(** The (driver, position) pairs [pivot_table] groups: a row without a
    position has no group. *)
Definition pivot_keys (df : DataFrame) : list (string * Q) :=
  flat_map (fun r => match position r with
                     | Some q => [(driver r, Qred q)]
                     | None => []
                     end) df.

(** [pivot_table(index='driver', columns='position', aggfunc='size',
    fill_value=0).astype(int)] *)
Definition pivot_table_size (df : DataFrame) : Table :=
  let keys := pivot_keys df in
  let cols := group_keys snd keys in
  {| columns := map LNum cols;
     rows := map (fun d =>
               (d, map (fun c => Z.of_nat (length (group (fun k => k) (d, c) keys))) cols))
             (group_keys fst keys) |}.

(** [t.columns = names] *)
Definition set_columns (names : list string) (t : Table) : Result Table :=
  if Nat.eqb (length names) (length (columns t))
  then Ok {| columns := map LStr names; rows := rows t |}
  else Raise (LengthMismatch (length (columns t)) (length names)).

(** [t[name] = t.sum(axis=1)], for a [name] that is not a column yet. *)
Definition add_row_sum (name : string) (t : Table) : Table :=
  {| columns := columns t ++ [LStr name];
     rows := map (fun r => (fst r, snd r ++ [Zsum (snd r)])) (rows t) |}.

Fixpoint column_pos (name : string) (cols : list Label) : option nat :=
  match cols with
  | [] => None
  | c :: cols' =>
      if Label_eq_dec c (LStr name) then Some O
      else option_map S (column_pos name cols')
  end.

Definition cell (i : nat) (r : string * list Z) : Z := nth i (snd r) 0.

Fixpoint remove_nth {A} (i : nat) (l : list A) : list A :=
  match l, i with
  | [], _ => []
  | _ :: l', O => l'
  | x :: l', S i' => x :: remove_nth i' l'
  end.

(** [t.sort_values(name, ascending=False)] *)
Definition sort_by_column_desc (name : string) (t : Table) : Result Table :=
  match column_pos name (columns t) with
  | Some i => Ok {| columns := columns t;
                    rows := isort (fun x y => Z.leb (cell i y) (cell i x)) (rows t) |}
  | None => Raise (KeyError name)
  end.

Definition table_head (n : nat) (t : Table) : Table :=
  {| columns := columns t; rows := head n (rows t) |}.

(** [t.drop(name, axis=1)] *)
Definition drop_column (name : string) (t : Table) : Result Table :=
  match column_pos name (columns t) with
  | Some i => Ok {| columns := remove_nth i (columns t);
                    rows := map (fun r => (fst r, remove_nth i (snd r))) (rows t) |}
  | None => Raise (KeyError name)
  end.

Definition podium_names : list string := ["1st"; "2nd"; "3rd"]%string.

(** Line 77. *)
Definition rank_by_total (t : Table) : Result Table :=
  rbind (sort_by_column_desc "Total" t) (fun t =>
  drop_column "Total" (table_head 10 t)).

Definition podium_count (df : DataFrame) : Result Table :=
  rbind (set_columns podium_names (pivot_table_size (podium df))) (fun t =>
  rank_by_total (add_row_sum "Total" t)).

(** ** Prediction (lines 138-161) *)

Definition recent_years (df : DataFrame) : DataFrame :=
  filter (fun r => 2020 <=? year r) df.

Definition driver_race_count (df : DataFrame) : Series string Z :=
  groupby_size driver (recent_years df).

Definition driver_total_points (df : DataFrame) : Series string Q :=
  groupby_sum driver points (recent_years df).

(** The average of a driver over the rows of the window, to state what
    [driver_avg] holds. *)
Definition window_avg (df : DataFrame) (d : string) : Q :=
  (Qsum (map points (group driver d (recent_years df)))
   / inject_Z (Z.of_nat (length (group driver d (recent_years df)))))%Q.

(** The index of [a / b]: the common index when the two are the same, their
    sorted union otherwise. *)
Definition align {K V W} `{Key K} (a : Series K V) (b : Series K W) : list K :=
  if list_eq_dec key_eq_dec (index a) (index b) then index a
  else isort key_leb (nodup key_eq_dec (index a ++ index b)).

(** [a / b] on Series: label by label; a label missing on one side gives NaN,
    and so does 0/0.  (A non-zero number over 0 is an infinity, which [Q]
    does not have: it shares the [None] of 0/0 here.  The divisor is
    [driver_race_count], whose values are group sizes.) *)
Definition series_div (a : Series string Q) (b : Series string Z)
  : Series string (option Q) :=
  map (fun k =>
         (k, match lookup k a, lookup k b with
             | Some x, Some n => if n =? 0 then None else Some (x / inject_Z n)%Q
             | _, _ => None
             end))
      (align a b).

Definition dropna {K} (s : Series K (option Q)) : Series K Q :=
  flat_map (fun e => match snd e with
                     | Some q => [(fst e, q)]
                     | None => []
                     end) s.

Definition driver_avg (df : DataFrame) : Series string Q :=
  sort_values_desc (dropna (series_div (driver_total_points df) (driver_race_count df))).

(** Rounding to the nearest integer, a half to the even neighbour. *)
Definition round_half_even (q : Q) : Z :=
  let f := Qfloor q in
  match (q - inject_Z f ?= 1 # 2)%Q with
  | Lt => f
  | Gt => f + 1
  | Eq => if Z.even f then f else f + 1
  end.

(** [round(decimals)] *)
Definition round_decimals (decimals : nat) (q : Q) : Q :=
  let scale := inject_Z (10 ^ Z.of_nat decimals) in
  (inject_Z (round_half_even (q * scale)) / scale)%Q.

Definition series_map {K V W} (f : V -> W) (s : Series K V) : Series K W :=
  map (fun e => (fst e, f (snd e))) s.

(** [(avg * 20).round(1)] *)
Definition project (avg : Series string Q) : Series string Q :=
  series_map (round_decimals 1) (series_map (fun v => v * (20 # 1))%Q avg).

Definition projected (df : DataFrame) : Series string Q :=
  project (driver_avg df).

Definition projection_2025 (df : DataFrame) : Series string Q :=
  nlargest 10 (projected df).

Definition top3 (df : DataFrame) : Series string Q :=
  head 3 (projection_2025 df).

(** Python's [int(x)]: truncation towards zero. *)
Definition int (q : Q) : Z := Z.quot (Qnum q) (Zpos (Qden q)).

Fixpoint enumerate {A} (start : Z) (l : list A) : list (Z * A) :=
  match l with
  | [] => []
  | x :: l' => (start, x) :: enumerate (start + 1) l'
  end.

Inductive Medal := Gold | Silver | Bronze.

Definition medal (i : Z) : Medal :=
  if i =? 1 then Gold else if i =? 2 then Silver else Bronze.

(** The lines of the "Predicted Top 3" list (lines 159-161). *)
Definition headline_of (top : Series string Q) : list (Medal * string * Z) :=
  map (fun e => (medal (fst e), fst (snd e), int (snd (snd e))))
      (enumerate 1 top).

Definition headline (df : DataFrame) : list (Medal * string * Z) :=
  headline_of (top3 df).

(** ** The script

    The script runs top to bottom on a store of pandas objects and writes
    to the page.  A variable holds a location of the store; indexing,
    [groupby], [pivot_table], [sort_values], [head], [drop] and arithmetic
    make a new object, while [t.columns = names] and [t[name] = values]
    change the object [t] is bound to. *)

Definition loc := nat.

Inductive Obj :=
| OFrame (hdr : list string) (df : DataFrame)
| OIndex (labels : list string)
| OTrend (s : Series (string * Z) Q)
| OTable (t : Table)
| OCounts (s : Series string Z)
| OSeries (s : Series string Q)
| OQuotient (s : Series string (option Q)).

Inductive Text :=
| Intro
| SaveHint
| Rule
| PredictionBasis
| Predicted (m : Medal) (driver : string) (pts : Z)
| Note
| BuiltWith
| Coverage.

Inductive Message :=
| FileNotFound
| LoadError (e : Exn).

Inductive Chart :=
| LinePlot (data : Series (string * Z) Q) (hue : string)
| Heatmap (data : Table)
| PlotlyLine (data : Series (string * Z) Q) (color : string).

(** The calls to Streamlit, in the order made. *)
Inductive Event :=
| st_set_page_config
| st_title
| st_markdown (t : Text)
| st_error (m : Message)
| st_success (n : nat) (first last : option Z)
| st_expander
| st_dataframe (df : DataFrame)
| st_tabs
| st_subheader (s : string)
| st_header
| st_pyplot (c : Chart)
| st_plotly_chart (c : Chart)
| st_bar_chart (s : Series string Q).

Record State := {
  heap : list Obj;
  output : list Event
}.

(** How a run of statements ends: normally, by an exception, or by
    [st.stop()], which no [except Exception] catches. *)
Inductive Outcome (A : Type) :=
| Done (a : A)
| Failed (e : Exn)
| Stopped.
Arguments Done {A} a.
Arguments Failed {A} e.
Arguments Stopped {A}.

Definition M (A : Type) := State -> Outcome A * State.

Definition ret {A} (a : A) : M A := fun s => (Done a, s).

Definition bind {A B} (m : M A) (k : A -> M B) : M B :=
  fun s => match m s with
           | (Done a, s') => k a s'
           | (Failed e, s') => (Failed e, s')
           | (Stopped, s') => (Stopped, s')
           end.

Notation "x <- m ;; k" := (bind m (fun x => k))
  (at level 61, m at next level, right associativity).
Notation "m ;; k" := (bind m (fun _ => k))
  (at level 61, right associativity).

Definition raise {A} (e : Exn) : M A := fun s => (Failed e, s).

Definition st_stop {A} : M A := fun s => (Stopped, s).

Definition lift {A} (r : Result A) : M A :=
  match r with
  | Ok a => ret a
  | Raise e => raise e
  end.

(** [try: m except Exception as e: handler(e)] *)
Definition try_except {A} (m : M A) (handler : Exn -> M A) : M A :=
  fun s => match m s with
           | (Failed e, s') => handler e s'
           | r => r
           end.

Definition emit (e : Event) : M unit :=
  fun s => (Done tt, {| heap := heap s; output := output s ++ [e] |}).

Definition new (o : Obj) : M loc :=
  fun s => (Done (length (heap s)), {| heap := heap s ++ [o]; output := output s |}).

Definition get (l : loc) : M Obj :=
  fun s => match nth_error (heap s) l with
           | Some o => (Done o, s)
           | None => (Failed TypeError, s)
           end.

Fixpoint update {A} (i : nat) (x : A) (l : list A) : list A :=
  match l, i with
  | [], _ => []
  | _ :: l', O => x :: l'
  | y :: l', S i' => y :: update i' x l'
  end.

Definition put (l : loc) (o : Obj) : M unit :=
  fun s => (Done tt, {| heap := update l o (heap s); output := output s |}).

Fixpoint emit_all (es : list Event) : M unit :=
  match es with
  | [] => ret tt
  | e :: es' => emit e ;; emit_all es'
  end.

(** [df[name]], for each of the [names]: a [KeyError] for the first that is
    no column. *)
Fixpoint columns_present (names hdr : list string) : Result unit :=
  match names with
  | [] => Ok tt
  | name :: names' =>
      if in_dec string_dec name hdr then columns_present names' hdr
      else Raise (KeyError name)
  end.

Definition read_frame (l : loc) (names : list string) : M (list string * DataFrame) :=
  o <- get l ;;
  match o with
  | OFrame hdr df => lift (columns_present names hdr) ;; ret (hdr, df)
  | _ => raise TypeError
  end.

Definition read_index (l : loc) : M (list string) :=
  o <- get l ;; match o with OIndex i => ret i | _ => raise TypeError end.

Definition read_trend (l : loc) : M (Series (string * Z) Q) :=
  o <- get l ;; match o with OTrend t => ret t | _ => raise TypeError end.

Definition read_table (l : loc) : M Table :=
  o <- get l ;; match o with OTable t => ret t | _ => raise TypeError end.

Definition read_counts (l : loc) : M (Series string Z) :=
  o <- get l ;; match o with OCounts c => ret c | _ => raise TypeError end.

Definition read_series (l : loc) : M (Series string Q) :=
  o <- get l ;; match o with OSeries x => ret x | _ => raise TypeError end.

Definition read_quotient (l : loc) : M (Series string (option Q)) :=
  o <- get l ;; match o with OQuotient x => ret x | _ => raise TypeError end.

(** *** Loading (lines 35-48) *)

(** A cell of the position column as [read_csv] leaves it: a number, a
    text that is not one, or nothing. *)
Inductive Cell :=
| CNum (q : Q)
| CStr (s : string)
| CNaN.

Record RawRow := {
  raw_year : Z;
  raw_driver : string;
  raw_constructor : string;
  raw_position : Cell;
  raw_points : Q
}.

(** What [pd.read_csv] returns.  [header] names the columns the file has;
    the fields of a column it does not name are never read: every access
    goes through [columns_present] first. *)
Record RawFrame := {
  header : list string;
  raw_rows : list RawRow
}.

(** The file named by [CSV_FILE]: what [os.path.exists] and [pd.read_csv]
    answer for it. *)
Record World := {
  file_exists : bool;
  read_csv : Result RawFrame
}.

Definition series_min (l : list Z) : option Z :=
  match l with
  | [] => None
  | x :: l' => Some (fold_left Z.min l' x)
  end.

Definition series_max (l : list Z) : option Z :=
  match l with
  | [] => None
  | x :: l' => Some (fold_left Z.max l' x)
  end.

Section Script.
(** The number a text denotes for [pd.to_numeric], if it denotes one. *)
Variable parse_number : string -> option Q.

(** [pd.to_numeric(..., errors='coerce')], on one cell. *)
Definition to_numeric_coerce (c : Cell) : option Q :=
  match c with
  | CNum q => Some q
  | CStr s => parse_number s
  | CNaN => None
  end.

Definition with_numeric_position (r : RawRow) : Row :=
  {| year := raw_year r;
     driver := raw_driver r;
     constructor := raw_constructor r;
     position := to_numeric_coerce (raw_position r);
     points := raw_points r |}.

(** The body of the [try] (lines 43-45). *)
Definition load (w : World) : M loc :=
  raw <- lift (read_csv w) ;;
  lift (columns_present ["position"%string] (header raw)) ;;
  df <- new (OFrame (header raw) (map with_numeric_position (raw_rows raw))) ;;
  lift (columns_present ["year"%string] (header raw)) ;;
  emit (st_success (length (raw_rows raw))
          (series_min (map raw_year (raw_rows raw)))
          (series_max (map raw_year (raw_rows raw)))) ;;
  ret df.

(** Lines 50-77: the sample and the tables of the charts. *)
Definition prepare (df : loc) : M (loc * loc * loc) :=
  emit st_expander ;;
  f <- read_frame df [] ;;
  emit (st_dataframe (head 10 (snd f))) ;;
  f <- read_frame df ["driver"; "points"]%string ;;
  lift (numeric_dtype (snd f)) ;;
  top_drivers <- new (OIndex (index (nlargest 6 (groupby_sum driver points (snd f))))) ;;
  f <- read_frame df ["driver"; "year"; "points"]%string ;;
  top <- read_index top_drivers ;;
  driver_trend <- new (OTrend (driver_trend_of top (snd f))) ;;
  f <- read_frame df ["constructor"; "year"; "points"]%string ;;
  cons_trend <- new (OTrend (cons_trend_all (snd f))) ;;
  t <- read_trend cons_trend ;;
  top_constructors <- new (OIndex (top_constructors_of t)) ;;
  t <- read_trend cons_trend ;;
  top <- read_index top_constructors ;;
  cons_trend <- new (OTrend (cons_trend_of top t)) ;;
  f <- read_frame df ["position"]%string ;;
  podium <- new (OFrame (fst f) (podium (snd f))) ;;
  f <- read_frame podium ["driver"; "position"]%string ;;
  podium_count <- new (OTable (pivot_table_size (snd f))) ;;
  t <- read_table podium_count ;;
  t <- lift (set_columns podium_names t) ;;
  put podium_count (OTable t) ;;
  t <- read_table podium_count ;;
  put podium_count (OTable (add_row_sum "Total" t)) ;;
  t <- read_table podium_count ;;
  t <- lift (rank_by_total t) ;;
  podium_count <- new (OTable t) ;;
  ret (driver_trend, cons_trend, podium_count).

(** Lines 83-119: the four tabs. *)
Definition show_tabs (driver_trend cons_trend podium_count : loc) : M unit :=
  emit st_tabs ;;
  emit (st_subheader "Top 6 Drivers: Points per Season") ;;
  t <- read_trend driver_trend ;;
  emit (st_pyplot (LinePlot t "driver")) ;;
  emit (st_subheader "Top Constructors: Points Over Time") ;;
  t <- read_trend cons_trend ;;
  emit (st_pyplot (LinePlot t "constructor")) ;;
  emit (st_subheader "Top 10 Drivers: Podium Finishes (1st, 2nd, 3rd)") ;;
  t <- read_table podium_count ;;
  emit (st_pyplot (Heatmap t)) ;;
  emit (st_subheader "Interactive Constructor Chart (Plotly)") ;;
  t <- read_trend cons_trend ;;
  emit (st_plotly_chart (PlotlyLine t "constructor")).

(** Lines 127-166: the prediction. *)
Definition predict (df : loc) : M unit :=
  emit (st_markdown Rule) ;;
  emit st_header ;;
  emit (st_markdown PredictionBasis) ;;
  f <- read_frame df ["year"]%string ;;
  recent_years <- new (OFrame (fst f) (recent_years (snd f))) ;;
  f <- read_frame recent_years ["driver"]%string ;;
  driver_race_count <- new (OCounts (groupby_size driver (snd f))) ;;
  f <- read_frame recent_years ["driver"; "points"]%string ;;
  driver_total_points <- new (OSeries (groupby_sum driver points (snd f))) ;;
  total <- read_series driver_total_points ;;
  count <- read_counts driver_race_count ;;
  driver_avg <- new (OQuotient (series_div total count)) ;;
  q <- read_quotient driver_avg ;;
  driver_avg <- new (OSeries (sort_values_desc (dropna q))) ;;
  avg <- read_series driver_avg ;;
  projection_2025 <- new (OSeries (nlargest 10 (project avg))) ;;
  p <- read_series projection_2025 ;;
  top3 <- new (OSeries (head 3 p)) ;;
  emit (st_subheader "Projected Points in 2025 (Top 10)") ;;
  p <- read_series projection_2025 ;;
  emit (st_bar_chart p) ;;
  emit (st_subheader "Predicted Top 3 Drivers for 2025") ;;
  t <- read_series top3 ;;
  emit_all (map (fun h => st_markdown (Predicted (fst (fst h)) (snd (fst h)) (snd h)))
                (headline_of t)) ;;
  emit (st_markdown Note) ;;
  emit (st_markdown Rule) ;;
  emit (st_markdown BuiltWith) ;;
  emit (st_markdown Coverage).

Definition dashboard (df : loc) : M unit :=
  v <- prepare df ;;
  show_tabs (fst (fst v)) (snd (fst v)) (snd v) ;;
  predict df.

Definition main (w : World) : M unit :=
  emit st_set_page_config ;;
  emit st_title ;;
  emit (st_markdown Intro) ;;
  (if file_exists w then ret tt
   else emit (st_error FileNotFound) ;; emit (st_markdown SaveHint) ;; st_stop) ;;
  df <- try_except (load w)
          (fun e => emit (st_error (LoadError e)) ;; st_stop) ;;
  dashboard df.
End Script.

Definition start : State := {| heap := []; output := [] |}.

(** *** What a run leaves alone *)

(** The first [n] locations of the store hold in [s'] what they held in [s]. *)
Definition unchanged_below (n : nat) (s s' : State) : Prop :=
  (n <= length (heap s'))%nat /\
  forall l, (l < n)%nat -> nth_error (heap s') l = nth_error (heap s) l.

(** [m], run on a store of at least [n] locations, leaves the first [n]
    alone, does not stop the script, and returns values that satisfy [Q]. *)
Definition frames {A} (n : nat) (Q : A -> Prop) (m : M A) : Prop :=
  forall s, (n <= length (heap s))%nat ->
    unchanged_below n s (snd (m s)) /\
    fst (m s) <> Stopped /\
    forall a, fst (m s) = Done a -> Q a.

(** The output is a chart or a table of the data. *)
Definition shows_data (e : Event) : bool :=
  match e with
  | st_dataframe _ | st_pyplot _ | st_plotly_chart _ | st_bar_chart _ => true
  | _ => false
  end.

Definition preamble : list Event :=
  [st_set_page_config; st_title; st_markdown Intro].



Definition expected_columns : list string :=
  ["year"; "driver"; "constructor"; "position"; "points"]%string.

(** ** The numbers pandas computes with

    [read_csv] gives a column of numbers the dtype int64 when every cell
    is an integer, and the dtype float64 otherwise.  A sum is taken in the
    dtype of its column: in int64 it wraps around, in float64 every
    addition rounds.  The quotient of line 143, the product by 20 and the
    rounding of line 149 are float64 operations, and [int] of line 161
    reads the float it is given.  This module follows the aggregation
    and the prediction on these numbers: a float64 is a primitive float
    of Rocq, which is an IEEE 754 binary64 computed with round to nearest
    even, and an int64 is an integer kept between -2^63 and 2^63 - 1. *)

Module Machine.

Inductive dtype := int64 | float64.

Definition value (t : dtype) : Type :=
  match t with
  | int64 => Z
  | float64 => float
  end.

(** *** int64 *)

Definition wrap64 (z : Z) : Z := (z + 2 ^ 63) mod 2 ^ 64 - 2 ^ 63.

(** The loop of [group_sum] over the values of one group, in int64. *)
Definition int64_sum (l : list Z) : Z :=
  fold_left (fun sumx val => wrap64 (sumx + val)) l 0.

(** *** float64 *)

(** The loop of [group_sum] over the values of one group, in float64:
    Kahan summation in the order of the rows, a missing value skipped,
    and the compensation set back to 0 when it is not a number (after an
    infinity). *)
Fixpoint kahan (sumx compensation : float) (l : list float) : float :=
  match l with
  | [] => sumx
  | val :: l' =>
      if is_nan val then kahan sumx compensation l'
      else
        let y := (val - compensation)%float in
        let t := (sumx + y)%float in
        let c := (t - sumx - y)%float in
        kahan t (if is_nan c then 0%float else c) l'
  end.

Definition float64_sum (l : list float) : float := kahan 0 0 l.

(** The number a float64 stands for: a rational or an infinity. *)
Inductive ereal :=
| MinusInf
| Finite (q : Q)
| PlusInf.

(** The rational [(-1)^s * m * 2^e]. *)
Definition exact (s : bool) (m : positive) (e : Z) : Q :=
  let n := if s then Z.neg m else Z.pos m in
  if 0 <=? e then inject_Z (n * 2 ^ e)
  else n # Pos.pow 2 (Z.to_pos (- e)).

(** [None] for NaN. *)
Definition as_real (x : float) : option ereal :=
  match Prim2SF x with
  | S754_zero _ => Some (Finite 0)
  | S754_infinity s => Some (if s then MinusInf else PlusInf)
  | S754_nan => None
  | S754_finite s m e => Some (Finite (exact s m e))
  end.

Definition ereal_le (a b : ereal) : bool :=
  match a, b with
  | MinusInf, _ => true
  | _, PlusInf => true
  | Finite p, Finite q => Qle_bool p q
  | _, _ => false
  end.

(** The order a descending sort with [na_position='last'] goes by:
    [x <= y] on numbers, and NaN below every number. *)
Definition float_below (x y : float) : bool :=
  match as_real x, as_real y with
  | None, _ => true
  | Some _, None => false
  | Some a, Some b => ereal_le a b
  end.

(** int64 to float64, to the nearest. *)
Definition of_int64 (z : Z) : float :=
  if z =? - 2 ^ 63 then (- (of_uint63 (Uint63.of_Z (2 ^ 62)) * 2))%float
  else if z <? 0 then (- of_uint63 (Uint63.of_Z (- z)))%float
  else of_uint63 (Uint63.of_Z z).

(** [np.rint]: the nearest integer, a half to the even neighbour, with
    the sign of [x]; a float64 from 2^52 on is an integer already. *)
Definition rint (x : float) : float :=
  match as_real x with
  | Some (Finite q) =>
      if Qle_bool (inject_Z (2 ^ 52)) q || Qle_bool q (inject_Z (- 2 ^ 52)) then x
      else
        let n := round_half_even q in
        if n =? 0 then (if get_sign x then neg_zero else zero)
        else of_int64 n
  | _ => x
  end.

(** [round(1)] of numpy: [rint(x * 10) / 10]. *)
Definition round1 (x : float) : float := (rint (x * 10) / 10)%float.

(** Python's [int(x)] on a float: the integer part, an [OverflowError]
    for an infinity and a [ValueError] for NaN. *)
Definition python_int (x : float) : Result Z :=
  match as_real x with
  | Some (Finite q) => Ok (int q)
  | Some _ => Raise OverflowError
  | None => Raise ValueError
  end.

(** *** A column of either dtype *)

Definition group_sum {t : dtype} : list (value t) -> value t :=
  match t with
  | int64 => int64_sum
  | float64 => float64_sum
  end.

(** What true division makes of an operand. *)
Definition to_float64 {t : dtype} : value t -> float :=
  match t with
  | int64 => of_int64
  | float64 => fun x => x
  end.

Definition below {t : dtype} : value t -> value t -> bool :=
  match t with
  | int64 => Z.leb
  | float64 => float_below
  end.

(** The cell of a column of dtype [t] that reads as the integer [z]. *)
Definition number {t : dtype} (z : Z) : value t :=
  match t with
  | int64 => z
  | float64 => of_int64 z
  end.

(** *** The data set *)

(** A race result, its points as the column holds them. *)
Record Row (V : Type) := {
  year : Z;
  driver : string;
  constructor : string;
  position : option Q;
  points : V
}.
Arguments year {V} r.
Arguments driver {V} r.
Arguments constructor {V} r.
Arguments position {V} r.
Arguments points {V} r.

Definition DataFrame (t : dtype) := list (Row (value t)).

(** [sort_values(ascending=False)], for the order [le] of the values:
    largest first, the missing values last.  The order of equal values is
    the sort's own; nothing below depends on it. *)
Definition sort_values_desc {K V} (le : V -> V -> bool) (s : Series K V)
  : Series K V :=
  isort (fun x y => le (snd y) (snd x)) s.

(** [nlargest(n)]: the [n] largest values, largest first, missing values
    only when the numbers run out. *)
Definition nlargest {K V} (le : V -> V -> bool) (n : nat) (s : Series K V)
  : Series K V :=
  head n (sort_values_desc le s).

Section Pipeline.
Context {t : dtype}.

(** [groupby(key)[col].sum()] *)
Definition groupby_sum {R K} `{Key K} (key : R -> K) (col : R -> value t)
    (rows : list R) : Series K (value t) :=
  map (fun k => (k, group_sum (map col (group key k rows)))) (group_keys key rows).

(** **** Lines 59-65 *)

Definition driver_points (df : DataFrame t) : Series string (value t) :=
  groupby_sum driver points df.

Definition top_drivers (df : DataFrame t) : Result (list string) :=
  rbind (numeric_dtype df) (fun _ =>
  Ok (index (nlargest below 6 (driver_points df)))).

Definition driver_trend_of (top : list string) (df : DataFrame t)
  : Series (string * Z) (value t) :=
  groupby_sum (fun r => (driver r, year r)) points
    (filter (fun r => isin top (driver r)) df).

Definition driver_trend (df : DataFrame t) : Result (Series (string * Z) (value t)) :=
  rbind (top_drivers df) (fun top => Ok (driver_trend_of top df)).

Definition cons_trend_all (df : DataFrame t) : Series (string * Z) (value t) :=
  groupby_sum (fun r => (constructor r, year r)) points df.

Definition constructor_points (trend : Series (string * Z) (value t))
  : Series string (value t) :=
  groupby_sum (fun e : (string * Z) * value t => fst (fst e)) snd trend.

Definition top_constructors (df : DataFrame t) : Result (list string) :=
  rbind (numeric_dtype df) (fun _ =>
  Ok (index (nlargest below 6 (constructor_points (cons_trend_all df))))).

Definition cons_trend (df : DataFrame t) : Result (Series (string * Z) (value t)) :=
  rbind (top_constructors df) (fun top =>
  Ok (filter (fun e => isin top (fst (fst e))) (cons_trend_all df))).

(** **** Lines 138-146 *)

Definition recent_years (df : DataFrame t) : DataFrame t :=
  filter (fun r => 2020 <=? year r) df.

Definition driver_race_count (df : DataFrame t) : Series string Z :=
  groupby_size driver (recent_years df).

Definition driver_total_points (df : DataFrame t) : Series string (value t) :=
  groupby_sum driver points (recent_years df).

(** [a / b], label by label, in float64; a label missing on one side
    gives NaN. *)
Definition series_div (a : Series string (value t)) (b : Series string Z)
  : Series string float :=
  map (fun k =>
         (k, match lookup k a, lookup k b with
             | Some x, Some n => (to_float64 x / of_int64 n)%float
             | _, _ => nan
             end))
      (align a b).

Definition dropna {K} (s : Series K float) : Series K float :=
  filter (fun e => negb (is_nan (snd e))) s.
End Pipeline.

Definition driver_avg {t} (df : DataFrame t) : Series string float :=
  sort_values_desc float_below
    (dropna (series_div (driver_total_points df) (driver_race_count df))).

(** **** Lines 149-161 *)

(** [(driver_avg * 20).round(1)] *)
Definition projected {t} (df : DataFrame t) : Series string float :=
  map (fun e => (fst e, round1 (snd e * 20)%float)) (driver_avg df).

Definition projection_2025 {t} (df : DataFrame t) : Result (Series string float) :=
  rbind (numeric_dtype df) (fun _ =>
  Ok (nlargest float_below 10 (projected df))).

Definition top3 {t} (df : DataFrame t) : Result (Series string float) :=
  rbind (projection_2025 df) (fun p => Ok (head 3 p)).

(** Each element through [f], in order, up to the first that raises. *)
Fixpoint traverse {A B} (f : A -> Result B) (l : list A) : Result (list B) :=
  match l with
  | [] => Ok []
  | x :: l' =>
      rbind (f x) (fun y =>
      rbind (traverse f l') (fun ys => Ok (y :: ys)))
  end.

(** The lines of the "Predicted Top 3" list (lines 159-161). *)
Definition headline_of (top : Series string float)
  : Result (list (Medal * string * Z)) :=
  traverse (fun e => rbind (python_int (snd (snd e))) (fun pts =>
                     Ok (medal (fst e), fst (snd e), pts)))
           (enumerate 1 top).

Definition headline {t} (df : DataFrame t) : Result (list (Medal * string * Z)) :=
  rbind (top3 df) headline_of.

(** *** The window as the specification words it

    "The most recent 5 seasons" present in the data, to compare with the
    window of [recent_years]. *)

Definition most_recent_seasons {t} (n : nat) (df : DataFrame t) : list Z :=
  head n (isort (fun x y => Z.leb y x) (nodup Z.eq_dec (map year df))).

Definition recent_years_spec {t} (df : DataFrame t) : DataFrame t :=
  filter (fun r => isin (most_recent_seasons 5 df) (year r)) df.

(** The rows of [d] from the season [from] on. *)
Definition entries_since {t} (from : Z) (d : string) (df : DataFrame t)
  : DataFrame t :=
  filter (fun r => (from <=? year r) && (driver r =? d)%string) df.

(** The quotient of line 143 for the driver [d], on the rows of [d] from
    2020 on. *)
Definition window_avg {t} (df : DataFrame t) (d : string) : float :=
  (to_float64 (group_sum (map points (entries_since 2020 d df)))
   / of_int64 (Z.of_nat (length (entries_since 2020 d df))))%float.

Definition result {t} (y : Z) (d c : string) (p : option Q) (pts : value t)
  : Row (value t) :=
  {| year := y; driver := d; constructor := c; position := p; points := pts |}.

End Machine.

(** The rows of an int64 data set, their points as exact numbers. *)
Definition exact_points (r : Machine.Row Z) : Row :=
  {| year := Machine.year r;
     driver := Machine.driver r;
     constructor := Machine.constructor r;
     position := Machine.position r;
     points := inject_Z (Machine.points r) |}.

(** ** Sample data *)

Definition result (y : Z) (d c : string) (p : option Q) (pts : Q) : Row :=
  {| year := y; driver := d; constructor := c; position := p; points := pts |}.

(** DriverA has the two results of the specification's example; DriverD
    last raced before the window. *)
Definition sample_results : DataFrame :=
  [ result 2023 "DriverA" "TeamX" (Some (1#1)%Q) (25#1)%Q;
    result 2024 "DriverA" "TeamX" (Some (2#1)%Q) (18#1)%Q;
    result 2024 "DriverB" "TeamY" (Some (3#1)%Q) (15#1)%Q;
    result 2019 "DriverB" "TeamY" None (0#1)%Q;
    result 2024 "DriverC" "TeamY" (Some (1#1)%Q) (25#1)%Q;
    result 2018 "DriverD" "TeamZ" (Some (2#1)%Q) (18#1)%Q;
    result 2022 "DriverE" "TeamZ" (Some (4#1)%Q) (10#1)%Q ]%string.

(** A single race result, a win. *)
Definition single_win : DataFrame :=
  [ result 2024 "DriverA" "TeamX" (Some (1#1)%Q) (25#1)%Q ]%string.

(** A file as [read_csv] returns it: one position is text that is a
    number, one is text that is not, one is empty. *)
Definition sample_file : RawFrame :=
  {| header := ["year"; "driver"; "constructor"; "position"; "points"]%string;
     raw_rows :=
       [ {| raw_year := 2023; raw_driver := "DriverA"; raw_constructor := "TeamX";
            raw_position := CNum (1#1); raw_points := (25#1)%Q |};
         {| raw_year := 2024; raw_driver := "DriverA"; raw_constructor := "TeamX";
            raw_position := CStr "2"; raw_points := (18#1)%Q |};
         {| raw_year := 2024; raw_driver := "DriverB"; raw_constructor := "TeamY";
            raw_position := CNum (3#1); raw_points := (15#1)%Q |};
         {| raw_year := 2024; raw_driver := "DriverC"; raw_constructor := "TeamY";
            raw_position := CStr "DNF"; raw_points := (0#1)%Q |};
         {| raw_year := 2021; raw_driver := "DriverC"; raw_constructor := "TeamY";
            raw_position := CNaN; raw_points := (0#1)%Q |} ]%string |}.

(** A parser for the sample: it knows the text "2". *)
Definition sample_parse (s : string) : option Q :=
  if String.eqb s "2" then Some (2#1)%Q else None.

Definition sample_world : World :=
  {| file_exists := true; read_csv := Ok sample_file |}.

(** The store when [sample_results] has just been loaded. *)
Definition sample_loaded : State :=
  {| heap := [OFrame (header sample_file) sample_results]; output := [] |}.



(** The sample file without its constructor column. *)
Definition no_constructor_file : RawFrame :=
  {| header := ["year"; "driver"; "position"; "points"]%string;
     raw_rows := raw_rows sample_file |}.


(** The sample with its points in either dtype. *)
Definition sample_machine (t : Machine.dtype) : Machine.DataFrame t :=
  [ Machine.result 2023 "DriverA" "TeamX" (Some (1#1)%Q) (Machine.number 25);
    Machine.result 2024 "DriverA" "TeamX" (Some (2#1)%Q) (Machine.number 18);
    Machine.result 2024 "DriverB" "TeamY" (Some (3#1)%Q) (Machine.number 15);
    Machine.result 2019 "DriverB" "TeamY" None (Machine.number 0);
    Machine.result 2024 "DriverC" "TeamY" (Some (1#1)%Q) (Machine.number 25);
    Machine.result 2018 "DriverA" "TeamZ" (Some (2#1)%Q) (Machine.number 18);
    Machine.result 2022 "DriverE" "TeamZ" (Some (4#1)%Q) (Machine.number 10) ]%string.

(** Three results with points in tenths, a float64 column. *)
Definition tenths : Machine.DataFrame Machine.float64 :=
  [ Machine.result (t := Machine.float64) 2024 "DriverA" "TeamX" (Some (1#1)%Q) 1%float;
    Machine.result (t := Machine.float64) 2023 "DriverA" "TeamX" (Some (2#1)%Q) 0.2%float;
    Machine.result (t := Machine.float64) 2024 "DriverA" "TeamX" (Some (3#1)%Q) 0.4%float ]%string.

(** Six seasons from 2020 on: one driver, no points in 2020, ten a season
    after, on the podium in three of them. *)
Definition seasons_2020_2025 : Machine.DataFrame Machine.int64 :=
  [ Machine.result (t := Machine.int64) 2020 "DriverA" "TeamX" (Some (9#1)%Q) 0;
    Machine.result (t := Machine.int64) 2021 "DriverA" "TeamX" (Some (3#1)%Q) 10;
    Machine.result (t := Machine.int64) 2022 "DriverA" "TeamX" (Some (2#1)%Q) 10;
    Machine.result (t := Machine.int64) 2023 "DriverA" "TeamX" (Some (1#1)%Q) 10;
    Machine.result (t := Machine.int64) 2024 "DriverA" "TeamX" (Some (5#1)%Q) 10;
    Machine.result (t := Machine.int64) 2025 "DriverA" "TeamX" (Some (5#1)%Q) 10 ]%string.

(** * Proofs *)

(** ** Sorting *)

Section SortingFacts.
Context {A : Type} (before : A -> A -> bool).

Lemma insert_perm (x : A) (l : list A) :
  Permutation (x :: l) (insert before x l).
Proof.
  induction l as [|y l IH]; simpl; [reflexivity|].
  destruct (before x y); [reflexivity|].
  rewrite perm_swap. now constructor.
Qed.

Lemma isort_perm (l : list A) : Permutation l (isort before l).
Proof.
  induction l as [|x l IH]; simpl; [constructor|].
  rewrite <- insert_perm. now constructor.
Qed.

Lemma isort_In (l : list A) (x : A) : In x (isort before l) <-> In x l.
Proof.
  split; apply Permutation_in; [symmetry|]; apply isort_perm.
Qed.

Lemma isort_length (l : list A) : length (isort before l) = length l.
Proof. symmetry. apply Permutation_length, isort_perm. Qed.

Lemma isort_NoDup (l : list A) : NoDup l -> NoDup (isort before l).
Proof. apply Permutation_NoDup, isort_perm. Qed.

Hypothesis before_total : forall x y, before x y = false -> before y x = true.
Hypothesis before_trans :
  forall x y z, before x y = true -> before y z = true -> before x z = true.

Lemma insert_sorted (x : A) (l : list A) :
  StronglySorted (in_order before) l -> StronglySorted (in_order before) (insert before x l).
Proof.
  induction 1 as [|y l Hl IH Hy]; simpl.
  - repeat constructor.
  - destruct (before x y) eqn:E.
    + constructor; [now constructor|].
      constructor; [exact E|].
      eapply Forall_impl; [|exact Hy].
      intros z Hz. exact (before_trans _ _ _ E Hz).
    + constructor; [exact IH|].
      apply (Permutation_Forall (insert_perm x l)).
      constructor; [now apply before_total | exact Hy].
Qed.

Lemma isort_sorted (l : list A) : StronglySorted (in_order before) (isort before l).
Proof.
  induction l as [|x l IH]; simpl; [constructor | now apply insert_sorted].
Qed.
End SortingFacts.


Lemma sort_values_desc_perm {K} (s : Series K Q) :
  Permutation s (sort_values_desc s).
Proof. apply isort_perm. Qed.

Lemma StronglySorted_firstn {A} (R : A -> A -> Prop) (n : nat) (l : list A) :
  StronglySorted R l -> StronglySorted R (firstn n l).
Proof.
  intros H. revert n. induction H as [|x l Hl IH Hx]; intros [|n]; simpl;
    try constructor; auto.
  apply Forall_forall. intros y Hy.
  rewrite Forall_forall in Hx. apply Hx.
  rewrite <- (firstn_skipn n l). apply in_or_app. now left.
Qed.


Lemma In_firstn {A} (n : nat) (l : list A) (x : A) : In x (firstn n l) -> In x l.
Proof.
  intros H. rewrite <- (firstn_skipn n l). apply in_or_app. now left.
Qed.

Lemma nlargest_In {K} (n : nat) (s : Series K Q) (e : K * Q) :
  In e (nlargest n s) -> In e s.
Proof.
  intros H. apply In_firstn in H.
  now apply (Permutation_in _ (Permutation_sym (sort_values_desc_perm s))).
Qed.


(** ** Sums *)


Lemma Zsum_lengths {A} (ll : list (list A)) :
  Zsum (map (fun l => Z.of_nat (length l)) ll) = Z.of_nat (length (concat ll)).
Proof.
  induction ll as [|l ll IH]; simpl; [reflexivity|].
  rewrite length_app, IH. lia.
Qed.

(** ** Grouping *)

Lemma key_eqb_true {K} `{Key K} (x y : K) : key_eqb x y = true <-> x = y.
Proof. unfold key_eqb. destruct (key_eq_dec x y); split; congruence. Qed.

Lemma key_eqb_refl {K} `{Key K} (x : K) : key_eqb x x = true.
Proof. now apply key_eqb_true. Qed.

Lemma isin_true {K} `{Key K} (l : list K) (k : K) : isin l k = true <-> In k l.
Proof. unfold isin. destruct (in_dec key_eq_dec k l); split; congruence. Qed.

Lemma isin_cons {K} `{Key K} (k : K) (ks : list K) (x : K) :
  isin (k :: ks) x = key_eqb x k || isin ks x.
Proof.
  destruct (key_eqb x k) eqn:E; simpl.
  - apply isin_true. left. symmetry. now apply key_eqb_true.
  - destruct (isin ks x) eqn:F.
    + apply isin_true. right. now apply isin_true.
    + destruct (isin (k :: ks) x) eqn:G; [|reflexivity].
      apply isin_true in G. destruct G as [G|G].
      * symmetry in G. apply key_eqb_true in G. congruence.
      * apply isin_true in G. congruence.
Qed.

Lemma filter_twice {A} (p q : A -> bool) (l : list A) :
  filter p (filter q l) = filter (fun x => q x && p x) l.
Proof.
  induction l as [|x l IH]; simpl; [reflexivity|].
  destruct (q x); simpl; [destruct (p x)|]; now rewrite IH.
Qed.

Lemma filter_split_perm {A} (p q : A -> bool) (l : list A) :
  (forall x, In x l -> p x = true -> q x = false) ->
  Permutation (filter p l ++ filter q l) (filter (fun x => p x || q x) l).
Proof.
  induction l as [|x l IH]; intros D; simpl; [constructor|].
  assert (IH' := IH (fun y Hy => D y (or_intror Hy))).
  destruct (p x) eqn:P; simpl.
  - rewrite (D x (or_introl eq_refl) P). now constructor.
  - destruct (q x); [|exact IH'].
    rewrite <- Permutation_middle. now constructor.
Qed.

Section GroupFacts.
Context {R K : Type} `{Key K} (key : R -> K).

Lemma group_keys_In (rows : list R) (k : K) :
  In k (group_keys key rows) <-> exists r, In r rows /\ key r = k.
Proof.
  unfold group_keys. rewrite isort_In, nodup_In, in_map_iff.
  split; intros [r [A B]]; exists r; auto.
Qed.

Lemma group_keys_NoDup (rows : list R) : NoDup (group_keys key rows).
Proof. apply isort_NoDup, NoDup_nodup. Qed.

Lemma group_In (k : K) (rows : list R) (r : R) :
  In r (group key k rows) <-> In r rows /\ key r = k.
Proof. unfold group. now rewrite filter_In, key_eqb_true. Qed.

(** A key has a group exactly when its group is not empty. *)
Lemma group_keys_nonempty (rows : list R) (k : K) :
  In k (group_keys key rows) <-> group key k rows <> [].
Proof.
  rewrite group_keys_In. split.
  - intros [r [A B]] E.
    assert (I : In r (group key k rows)) by now apply group_In.
    rewrite E in I. destruct I.
  - destruct (group key k rows) as [|r g] eqn:E; [congruence|].
    intros _. exists r. apply group_In. rewrite E. now left.
Qed.

(** The groups of distinct keys split the rows that have one of the keys. *)
Lemma groups_partition (ks : list K) (rows : list R) :
  NoDup ks ->
  Permutation (concat (map (fun k => group key k rows) ks))
              (filter (fun r => isin ks (key r)) rows).
Proof.
  induction 1 as [|k ks Hk Hks IH]; simpl.
  - induction rows; simpl; auto.
  - rewrite IH. unfold group.
    rewrite (filter_split_perm
               (fun r => key_eqb (key r) k) (fun r => isin ks (key r))).
    + erewrite filter_ext; [reflexivity|].
      intros r. simpl. symmetry. apply isin_cons.
    + intros r _ E. apply key_eqb_true in E. subst k.
      destruct (isin ks (key r)) eqn:F; [|reflexivity].
      apply isin_true in F. contradiction.
Qed.

Lemma lookup_keys {V} (f : K -> V) (ks : list K) (k : K) :
  In k ks -> lookup k (map (fun k => (k, f k)) ks) = Some (f k).
Proof.
  induction ks as [|k' ks IH]; simpl; [tauto|].
  intros I. destruct (key_eq_dec k k') as [->|N]; [reflexivity|].
  destruct I as [I|I]; [congruence | auto].
Qed.

Lemma groupby_sum_index (col : R -> Q) (rows : list R) :
  index (groupby_sum key col rows) = group_keys key rows.
Proof.
  unfold index, groupby_sum. rewrite map_map. simpl. apply map_id.
Qed.

Lemma groupby_size_index (rows : list R) :
  index (groupby_size key rows) = group_keys key rows.
Proof.
  unfold index, groupby_size. rewrite map_map. simpl. apply map_id.
Qed.

End GroupFacts.

(** ** The six drivers *)

(** ** The podium table *)

Lemma isin_num_has_position (values : list Q) (r : Row) :
  isin_num values (position r) = true -> has_position r = true.
Proof. unfold has_position. now destruct (position r). Qed.

(** The pairs grouped by the pivot table are those of the rows with a
    position: a row without one is in no group. *)
Lemma pivot_keys_count (d : string) (df : DataFrame) :
  length (filter (fun k => key_eqb (fst k) d) (pivot_keys df))
  = length (filter (fun r => key_eqb (driver r) d && has_position r) df).
Proof.
  unfold pivot_keys, has_position.
  induction df as [|r df IH]; simpl; [reflexivity|].
  destruct (position r) as [q|]; simpl.
  - destruct (key_eqb (driver r) d); simpl; now rewrite IH.
  - now rewrite andb_false_r.
Qed.

Lemma remove_nth_last {A} (l : list A) (x : A) :
  remove_nth (length l) (l ++ [x]) = l.
Proof. induction l as [|y l IH]; simpl; [reflexivity | now rewrite IH]. Qed.

Lemma NoDup_map_pair {A B} (a : A) (l : list B) :
  NoDup l -> NoDup (map (fun b => (a, b)) l).
Proof.
  induction 1 as [|b l Hb Hl IH]; simpl; constructor; auto.
  rewrite in_map_iff. intros [b' [E I]]. inversion E. now subst.
Qed.

(** A row of the pivot table: one cell per column, no cell negative, and
    the cells add up to the number of rows of that driver that have a
    position. *)
Lemma pivot_table_size_row (df : DataFrame) (d : string) (cells : list Z) :
  In (d, cells) (rows (pivot_table_size df)) ->
  length cells = length (columns (pivot_table_size df)) /\
  Forall (fun z => 0 <= z) cells /\
  Zsum cells
  = Z.of_nat (length (filter (fun r => key_eqb (driver r) d && has_position r) df)).
Proof.
  unfold pivot_table_size. simpl. rewrite in_map_iff.
  intros [d' [E _]]. inversion E. subst d'. clear E.
  set (keys := pivot_keys df). set (cols := group_keys snd keys).
  repeat split.
  - now rewrite !length_map.
  - apply Forall_forall. intros z. rewrite in_map_iff.
    intros [c [<- _]]. lia.
  - rewrite <- pivot_keys_count. fold keys.
    transitivity (Zsum (map (fun l : list (string * Q) => Z.of_nat (length l))
                     (map (fun k => group (fun k => k) k keys)
                          (map (fun c => (d, c)) cols)))).
    { now rewrite !map_map. }
    rewrite Zsum_lengths. f_equal.
    rewrite (Permutation_length
               (groups_partition (fun k => k) (map (fun c => (d, c)) cols) keys
                  (NoDup_map_pair d cols (group_keys_NoDup snd keys)))).
    f_equal. apply filter_ext_in. intros [d' c] I. simpl.
    destruct (key_eqb d' d) eqn:F.
    + apply key_eqb_true in F. subst d'.
      apply isin_true, in_map. apply group_keys_In. now exists (d, c).
    + destruct (isin _ (d', c)) eqn:G; [|reflexivity].
      apply isin_true, in_map_iff in G. destruct G as [c' [G _]].
      inversion G. subst. now rewrite key_eqb_refl in F.
Qed.

(** What [podium_count] is when it is produced: the pivot table had three
    columns, and the final rows are rows of the pivot table, ranked by
    their sum, the first ten of them. *)
Lemma podium_count_Ok (df : DataFrame) (t : Table) :
  podium_count df = Ok t ->
  length (columns (pivot_table_size (podium df))) = 3%nat /\
  columns t = map LStr podium_names /\
  exists ranked,
    Permutation (rows (pivot_table_size (podium df))) ranked /\
    StronglySorted (fun x y => Zsum (snd y) <= Zsum (snd x)) ranked /\
    rows t = head 10 ranked.
Proof.
  unfold podium_count, rank_by_total, set_columns.
  set (P := pivot_table_size (podium df)).
  destruct (Nat.eqb (length podium_names) (length (columns P))) eqn:L;
    [|discriminate].
  apply Nat.eqb_eq in L. change (length podium_names) with 3%nat in L.
  symmetry in L.
  assert (W : forall r, In r (rows P) -> length (snd r) = 3%nat).
  { intros [d cells] I. apply pivot_table_size_row in I.
    destruct I as [I _]. simpl. rewrite I. exact L. }
  cbn -[pivot_table_size podium isort head remove_nth]. intros E. injection E as <-.
  split; [exact L|]. split; [reflexivity|].
  cbn -[pivot_table_size podium isort head remove_nth].
  set (addsum := fun r : string * list Z => (fst r, snd r ++ [Zsum (snd r)])).
  set (by_total := fun x y : string * list Z => cell 3 y <=? cell 3 x).
  assert (C : forall r, In r (rows P) -> cell 3 (addsum r) = Zsum (snd r)).
  { intros r I. unfold cell, addsum. simpl.
    rewrite app_nth2 by (rewrite (W r I); lia). now rewrite (W r I). }
  assert (D : forall r, In r (rows P) ->
                (fst (addsum r), remove_nth 3 (snd (addsum r))) = r).
  { intros [d cells] I. unfold addsum. cbn [fst snd].
    rewrite <- (W _ I) at 1. cbn [snd]. now rewrite remove_nth_last. }
  exists (map (fun r => (fst r, remove_nth 3 (snd r)))
              (isort by_total (map addsum (rows P)))).
  assert (Sub : forall r, In r (isort by_total (map addsum (rows P))) ->
                  exists r0, In r0 (rows P) /\ r = addsum r0).
  { intros r I. apply isort_In, in_map_iff in I.
    destruct I as [r0 [E I]]. now exists r0. }
  split; [|split].
  - rewrite <- (isort_perm by_total (map addsum (rows P))).
    rewrite map_map. rewrite <- (map_id (rows P)) at 1.
    erewrite map_ext_in; [reflexivity|].
    intros r I. simpl. symmetry. now apply D.
  - assert (S := isort_sorted by_total
                   (fun x y E => proj2 (Z.leb_le _ _)
                      (Z.lt_le_incl _ _ (proj1 (Z.leb_gt _ _) E)))
                   (fun x y z A B => proj2 (Z.leb_le _ _)
                      (Z.le_trans _ _ _ (proj1 (Z.leb_le _ _) B)
                                        (proj1 (Z.leb_le _ _) A)))
                   (map addsum (rows P))).
    revert Sub S. generalize (isort by_total (map addsum (rows P))).
    intros l Sub S. induction S as [|x l Sl IH Hx]; cbn [map]; constructor.
    + apply IH. intros r I. apply Sub. now right.
    + apply Forall_forall. intros y. rewrite in_map_iff.
      intros [y0 [<- Iy]]. cbn [snd].
      rewrite Forall_forall in Hx. specialize (Hx y0 Iy).
      unfold in_order, by_total in Hx. apply Z.leb_le in Hx.
      destruct (Sub x (or_introl eq_refl)) as [x1 [Ix ->]].
      destruct (Sub y0 (or_intror Iy)) as [y1 [Iy1 ->]].
      rewrite !C in Hx by assumption.
      cbn [snd].
      rewrite (f_equal snd (D x1 Ix) : remove_nth 3 (snd (addsum x1)) = snd x1).
      rewrite (f_equal snd (D y1 Iy1) : remove_nth 3 (snd (addsum y1)) = snd y1).
      exact Hx.
  - unfold head. now rewrite firstn_map.
Qed.

(** C2. For every data set for which the podium table is produced, every
    entry of the table is a non-negative integer, the table has the three
    columns "1st", "2nd", "3rd", and the three counts of each driver in it
    add up to the number of rows of the source data with that driver and
    a finishing position in {1, 2, 3}. *)
Theorem podium_count_entries (df : DataFrame) (t : Table)
    (d : string) (cells : list Z) :
  podium_count df = Ok t ->
  In (d, cells) (rows t) ->
  Forall (fun z => 0 <= z) cells /\
  exists c1 c2 c3,
    cells = [c1; c2; c3] /\
    c1 + c2 + c3
    = Z.of_nat (length (filter (fun r => key_eqb (driver r) d
                                         && isin_num [1#1; 2#1; 3#1]%Q (position r)) df)).
Proof.
  intros Hok I.
  destruct (podium_count_Ok df t Hok) as [L [_ [ranked [Pm [_ Rt]]]]].
  rewrite Rt in I. apply In_firstn in I.
  apply (Permutation_in _ (Permutation_sym Pm)) in I.
  apply pivot_table_size_row in I. destruct I as [Len [Pos Sum]].
  split; [exact Pos|].
  rewrite L in Len.
  destruct cells as [|c1 [|c2 [|c3 [|c4 cells]]]]; try discriminate.
  exists c1, c2, c3. split; [reflexivity|].
  simpl in Sum. rewrite Z.add_0_r, Z.add_assoc in Sum. rewrite Sum.
  unfold podium. rewrite filter_twice. do 2 f_equal.
  apply filter_ext. intros r.
  destruct (isin_num _ (position r)) eqn:E; simpl.
  - now rewrite (isin_num_has_position _ r E).
  - now rewrite andb_false_r.
Qed.

Lemma podium_count_entries_witness :
  Forall (fun z => 0 <= z) [1; 1; 0] /\
  exists c1 c2 c3,
    [1; 1; 0] = [c1; c2; c3] /\
    c1 + c2 + c3
    = Z.of_nat (length (filter (fun r => key_eqb (driver r) "DriverA"%string
                                         && isin_num [1#1; 2#1; 3#1]%Q (position r))
                               sample_results)).
Proof.
  apply (podium_count_entries sample_results
           {| columns := map LStr podium_names;
              rows := [ ("DriverA"%string, [1; 1; 0]);
                        ("DriverB"%string, [0; 0; 1]);
                        ("DriverC"%string, [1; 0; 0]);
                        ("DriverD"%string, [0; 1; 0]) ] |}).
  - vm_compute. reflexivity.
  - left. reflexivity.
Defined.

(** ** The recent-form average *)

Lemma dropna_map_Some {K} (f : K -> option Q) (g : K -> Q) (ks : list K) :
  (forall k, In k ks -> f k = Some (g k)) ->
  dropna (map (fun k => (k, f k)) ks) = map (fun k => (k, g k)) ks.
Proof.
  induction ks as [|k ks IH]; intros E; simpl; [reflexivity|].
  rewrite (E k (or_introl eq_refl)). simpl. f_equal.
  apply IH. intros k' I. apply E. now right.
Qed.

Lemma recent_years_In (df : DataFrame) (r : Row) :
  In r (recent_years df) <-> In r df /\ 2020 <= year r.
Proof. unfold recent_years. now rewrite filter_In, Z.leb_le. Qed.

(** Every driver counted in the window has at least one race there: the
    division never divides by zero. *)
Lemma driver_race_count_pos (df : DataFrame) (d : string) (n : Z) :
  In (d, n) (driver_race_count df) -> 0 < n.
Proof.
  unfold driver_race_count, groupby_size. rewrite in_map_iff.
  intros [k [E I]]. inversion E. subst k n.
  apply group_keys_nonempty in I.
  destruct (group driver d (recent_years df)); [congruence | simpl; lia].
Qed.

(** The division gives a number for every driver of the window: no NaN. *)
Lemma series_div_window (df : DataFrame) :
  series_div (driver_total_points df) (driver_race_count df)
  = map (fun d => (d, Some (window_avg df d))) (group_keys driver (recent_years df)).
Proof.
  unfold series_div, align, driver_total_points, driver_race_count.
  rewrite groupby_sum_index, groupby_size_index.
  destruct (list_eq_dec key_eq_dec _ _) as [_|N]; [|congruence].
  apply map_ext_in. intros d I. f_equal.
  unfold groupby_sum, groupby_size.
  rewrite (lookup_keys (fun k => Qsum (map points (group driver k (recent_years df)))))
    by exact I.
  rewrite (lookup_keys (fun k => Z.of_nat (length (group driver k (recent_years df)))))
    by exact I.
  apply group_keys_nonempty in I.
  destruct (Z.eqb_spec (Z.of_nat (length (group driver d (recent_years df)))) 0)
    as [E|E]; [|reflexivity].
  destruct (group driver d (recent_years df)); [congruence | simpl in E; lia].
Qed.

(** So [dropna] has nothing to drop. *)
Lemma driver_avg_unsorted (df : DataFrame) :
  dropna (series_div (driver_total_points df) (driver_race_count df))
  = map (fun d => (d, window_avg df d)) (group_keys driver (recent_years df)).
Proof.
  rewrite series_div_window.
  apply (dropna_map_Some (fun d => Some (window_avg df d))). reflexivity.
Qed.

Lemma driver_avg_perm (df : DataFrame) :
  Permutation (map (fun d => (d, window_avg df d))
                   (group_keys driver (recent_years df)))
              (driver_avg df).
Proof.
  unfold driver_avg. rewrite driver_avg_unsorted. apply sort_values_desc_perm.
Qed.

Lemma driver_avg_In (df : DataFrame) (d : string) (v : Q) :
  In (d, v) (driver_avg df) <->
  In d (group_keys driver (recent_years df)) /\ v = window_avg df d.
Proof.
  split.
  - intros I. apply (Permutation_in _ (Permutation_sym (driver_avg_perm df))) in I.
    apply in_map_iff in I. destruct I as [k [E I]]. inversion E. now subst.
  - intros [I ->]. apply (Permutation_in _ (driver_avg_perm df)).
    apply in_map_iff. now exists d.
Qed.



Lemma in_window_iff (df : DataFrame) (d : string) :
  In d (group_keys driver (recent_years df)) <->
  exists r, In r df /\ driver r = d /\ 2020 <= year r.
Proof.
  rewrite group_keys_In. split.
  - intros [r [I E]]. apply recent_years_In in I. exists r. tauto.
  - intros [r [I [E Y]]]. exists r. split; [|exact E].
    apply recent_years_In. tauto.
Qed.

(** ** The projection *)

Lemma series_map_In {K V W} (f : V -> W) (s : Series K V) (k : K) (w : W) :
  In (k, w) (series_map f s) <-> exists v, In (k, v) s /\ w = f v.
Proof.
  unfold series_map. rewrite in_map_iff. split.
  - intros [[k' v] [E I]]. simpl in E. inversion E. subst. now exists v.
  - intros [v [I ->]]. now exists (k, v).
Qed.


Lemma projected_In (df : DataFrame) (d : string) (v : Q) :
  In (d, v) (projected df) <->
  exists avg, In (d, avg) (driver_avg df) /\ v = round_decimals 1 (avg * (20#1))%Q.
Proof.
  unfold projected, project. rewrite series_map_In. split.
  - intros [w [I ->]]. apply series_map_In in I. destruct I as [avg [I ->]].
    now exists avg.
  - intros [avg [I ->]]. exists (avg * (20#1))%Q. split; [|reflexivity].
    apply series_map_In. now exists avg.
Qed.

Lemma index_In {K V} (s : Series K V) (k : K) :
  In k (index s) <-> exists v, In (k, v) s.
Proof.
  unfold index. rewrite in_map_iff. split.
  - intros [[k' v] [E I]]. simpl in E. subst. now exists v.
  - intros [v I]. now exists (k, v).
Qed.

(** ** Rounding *)


(** ** The largest values *)

Lemma StronglySorted_app {A} (R : A -> A -> Prop) (l1 l2 : list A) :
  StronglySorted R (l1 ++ l2) ->
  forall x y, In x l1 -> In y l2 -> R x y.
Proof.
  induction l1 as [|a l1 IH]; simpl; intros S x y Ix Iy; [tauto|].
  inversion S as [|? ? S' F]. subst.
  destruct Ix as [<-|Ix].
  - rewrite Forall_forall in F. apply F, in_or_app. now right.
  - now apply IH.
Qed.



(** ** Seasons *)

(** In a list of distinct seasons, latest first, none later than [m] and
    [m] among them, [m] comes first and the others are earlier. *)
Lemma latest_season_first (l : list Z) (m : Z) :
  StronglySorted (fun x y => y <= x) l -> NoDup l ->
  (forall y, In y l -> y <= m) -> In m l ->
  exists l', l = m :: l' /\
             StronglySorted (fun x y => y <= x) l' /\ NoDup l' /\
             (forall y, In y l' -> y <= m - 1) /\
             (forall y, In y l -> y <> m -> In y l').
Proof.
  intros S N B I. destruct l as [|x l']; [destruct I|].
  inversion S as [|? ? S' F]. inversion N as [|? ? Nx N']. subst.
  rewrite Forall_forall in F.
  assert (E : x = m).
  { destruct I as [I|I]; [exact I|].
    assert (A := F m I). assert (C := B x (or_introl eq_refl)). lia. }
  subst x. exists l'. repeat split; auto.
  - intros y Hy. assert (A := F y Hy).
    assert (y <> m) by (intros ->; contradiction). lia.
  - intros y [Hy|Hy] D; [congruence | exact Hy].
Qed.

(** ** C6: no average without a race in the window *)

(** C6. For every data set, a driver none of whose rows is in the window
    (season 2020 or later) is in none of the results: not in the race
    counts, not in the quotient (not even as a missing value), not in the
    averages, not in the projection or its top 3; and every race count the
    totals are divided by is positive, so that no division by zero
    happens. *)
Theorem no_entry_no_average (df : DataFrame) (d : string) :
  (forall r, In r df -> driver r = d -> year r < 2020) ->
  ~ In d (index (driver_race_count df)) /\
  ~ In d (index (series_div (driver_total_points df) (driver_race_count df))) /\
  ~ In d (index (driver_avg df)) /\
  ~ In d (index (projection_2025 df)) /\
  ~ In d (index (top3 df)) /\
  (forall d' n, In (d', n) (driver_race_count df) -> 0 < n) /\
  (forall d' v, In (d', v) (series_div (driver_total_points df) (driver_race_count df)) ->
                v <> None).
Proof.
  intros Z0.
  assert (N : ~ In d (group_keys driver (recent_years df))).
  { intros I. apply in_window_iff in I. destruct I as [r [I [E Y]]].
    specialize (Z0 r I E). lia. }
  assert (A : ~ In d (index (driver_avg df))).
  { intros I. apply index_In in I. destruct I as [v I].
    apply driver_avg_In in I. tauto. }
  assert (P : ~ In d (index (projection_2025 df))).
  { intros I. apply index_In in I. destruct I as [v I].
    apply nlargest_In, projected_In in I. destruct I as [avg [I _]].
    apply A, index_In. now exists avg. }
  repeat split.
  - unfold driver_race_count. now rewrite groupby_size_index.
  - rewrite series_div_window. unfold index. rewrite map_map. simpl.
    now rewrite map_id.
  - exact A.
  - exact P.
  - intros I. apply P. unfold index in *. apply in_map_iff in I.
    destruct I as [e [E I]]. apply In_firstn in I.
    apply in_map_iff. now exists e.
  - apply driver_race_count_pos.
  - intros d' v. rewrite series_div_window, in_map_iff.
    intros [k [E _]]. inversion E. discriminate.
Qed.

Lemma no_entry_no_average_witness :
  ~ In "DriverD"%string (index (driver_avg sample_results)) /\
  ~ In "DriverD"%string (index (projection_2025 sample_results)).
Proof.
  assert (Z0 : forall r, In r sample_results ->
                 driver r = "DriverD"%string -> year r < 2020).
  { intros r I E. simpl in I.
    repeat (destruct I as [<-|I]; [try discriminate E; simpl; lia|]).
    destruct I. }
  destruct (no_entry_no_average sample_results "DriverD"%string Z0)
    as [_ [_ [A [P _]]]].
  exact (conj A P).
Defined.

(** ** The headline *)

(** ** C10: the headline and the chart *)



(** ** The store *)

Lemma update_length {A} (i : nat) (x : A) (l : list A) :
  length (update i x l) = length l.
Proof.
  revert i. induction l as [|y l IH]; intros [|i]; simpl; auto.
Qed.

Lemma update_other {A} (i j : nat) (x : A) (l : list A) :
  i <> j -> nth_error (update i x l) j = nth_error l j.
Proof.
  revert i j. induction l as [|y l IH]; intros [|i] [|j] N; simpl; auto.
  congruence.
Qed.

Lemma unchanged_below_refl (n : nat) (s : State) :
  (n <= length (heap s))%nat -> unchanged_below n s s.
Proof. now split. Qed.

Lemma unchanged_below_trans (n : nat) (s1 s2 s3 : State) :
  unchanged_below n s1 s2 -> unchanged_below n s2 s3 -> unchanged_below n s1 s3.
Proof.
  intros [L1 E1] [L2 E2]. split; [exact L2|].
  intros l Hl. now rewrite E2, E1.
Qed.

Section Frames.
Variable n : nat.

Lemma frames_ret {A} (Q : A -> Prop) (a : A) : Q a -> frames n Q (ret a).
Proof.
  intros Ha s L. simpl. split; [now apply unchanged_below_refl|].
  split; [discriminate|]. now intros a' [= <-].
Qed.

Lemma frames_bind {A B} (P : A -> Prop) (Q : B -> Prop) (m : M A) (k : A -> M B) :
  frames n P m -> (forall a, P a -> frames n Q (k a)) -> frames n Q (bind m k).
Proof.
  intros Hm Hk s L. unfold bind.
  destruct (Hm s L) as [U [NS HP]].
  destruct (m s) as [[a|e|] s1]; simpl in *.
  - destruct (Hk a (HP a eq_refl) s1 (proj1 U)) as [U' R].
    split; [|exact R]. now apply unchanged_below_trans with s1.
  - split; [exact U|]. split; discriminate.
  - congruence.
Qed.

Lemma frames_raise {A} (Q : A -> Prop) (e : Exn) : frames n Q (raise e).
Proof.
  intros s L. simpl. split; [now apply unchanged_below_refl|].
  split; discriminate.
Qed.

Lemma frames_lift {A} (r : Result A) : frames n (fun _ => True) (lift r).
Proof. destruct r; [now apply frames_ret | apply frames_raise]. Qed.

Lemma frames_emit (e : Event) : frames n (fun _ => True) (emit e).
Proof.
  intros s L. simpl. split; [now split|].
  split; [discriminate | trivial].
Qed.

Lemma frames_emit_all (es : list Event) : frames n (fun _ => True) (emit_all es).
Proof.
  induction es as [|e es IH]; simpl; [now apply frames_ret|].
  apply frames_bind with (P := fun _ => True); [apply frames_emit | auto].
Qed.

(** A new object gets a location past the first [n]. *)
Lemma frames_new (o : Obj) : frames n (fun l => (n <= l)%nat) (new o).
Proof.
  intros s L. simpl. split; [|split; [discriminate | now intros a [= <-]]].
  split; simpl.
  - rewrite length_app. lia.
  - intros l Hl. apply nth_error_app1. lia.
Qed.

Lemma frames_get (l : loc) : frames n (fun _ => True) (get l).
Proof.
  intros s L. unfold get.
  destruct (nth_error (heap s) l); simpl;
    (split; [now apply unchanged_below_refl|]); split; trivial; discriminate.
Qed.

(** Changing an object in place, past the first [n]. *)
Lemma frames_put (l : loc) (o : Obj) :
  (n <= l)%nat -> frames n (fun _ => True) (put l o).
Proof.
  intros Hl s L. simpl. split; [|split; [discriminate | trivial]].
  split; simpl.
  - now rewrite update_length.
  - intros l' Hl'. apply update_other. lia.
Qed.

Lemma frames_read_frame (l : loc) (names : list string) :
  frames n (fun _ => True) (read_frame l names).
Proof.
  apply frames_bind with (P := fun _ => True); [apply frames_get|].
  intros [] _; try apply frames_raise.
  apply frames_bind with (P := fun _ => True); [apply frames_lift|].
  intros _ _. now apply frames_ret.
Qed.

Lemma frames_read_index (l : loc) : frames n (fun _ => True) (read_index l).
Proof.
  apply frames_bind with (P := fun _ => True); [apply frames_get|].
  intros [] _; try apply frames_raise. now apply frames_ret.
Qed.

Lemma frames_read_trend (l : loc) : frames n (fun _ => True) (read_trend l).
Proof.
  apply frames_bind with (P := fun _ => True); [apply frames_get|].
  intros [] _; try apply frames_raise. now apply frames_ret.
Qed.

Lemma frames_read_table (l : loc) : frames n (fun _ => True) (read_table l).
Proof.
  apply frames_bind with (P := fun _ => True); [apply frames_get|].
  intros [] _; try apply frames_raise. now apply frames_ret.
Qed.

Lemma frames_read_counts (l : loc) : frames n (fun _ => True) (read_counts l).
Proof.
  apply frames_bind with (P := fun _ => True); [apply frames_get|].
  intros [] _; try apply frames_raise. now apply frames_ret.
Qed.

Lemma frames_read_series (l : loc) : frames n (fun _ => True) (read_series l).
Proof.
  apply frames_bind with (P := fun _ => True); [apply frames_get|].
  intros [] _; try apply frames_raise. now apply frames_ret.
Qed.

Lemma frames_read_quotient (l : loc) : frames n (fun _ => True) (read_quotient l).
Proof.
  apply frames_bind with (P := fun _ => True); [apply frames_get|].
  intros [] _; try apply frames_raise. now apply frames_ret.
Qed.
End Frames.

(** One statement of the script, then the rest. *)
Ltac frame_step :=
  lazymatch goal with
  | |- frames _ _ (bind (new _) _) =>
      eapply frames_bind; [apply frames_new | intros ? ?]
  | |- frames _ _ (bind (put _ _) _) =>
      eapply frames_bind; [apply frames_put; assumption | intros _ _]
  | |- frames _ _ (bind (emit _) _) =>
      eapply frames_bind; [apply frames_emit | intros _ _]
  | |- frames _ _ (bind (emit_all _) _) =>
      eapply frames_bind; [apply frames_emit_all | intros _ _]
  | |- frames _ _ (bind (lift _) _) =>
      eapply frames_bind; [apply frames_lift | intros ? _]
  | |- frames _ _ (bind (read_frame _ _) _) =>
      eapply frames_bind; [apply frames_read_frame | intros ? _]
  | |- frames _ _ (bind (read_index _) _) =>
      eapply frames_bind; [apply frames_read_index | intros ? _]
  | |- frames _ _ (bind (read_trend _) _) =>
      eapply frames_bind; [apply frames_read_trend | intros ? _]
  | |- frames _ _ (bind (read_table _) _) =>
      eapply frames_bind; [apply frames_read_table | intros ? _]
  | |- frames _ _ (bind (read_counts _) _) =>
      eapply frames_bind; [apply frames_read_counts | intros ? _]
  | |- frames _ _ (bind (read_series _) _) =>
      eapply frames_bind; [apply frames_read_series | intros ? _]
  | |- frames _ _ (bind (read_quotient _) _) =>
      eapply frames_bind; [apply frames_read_quotient | intros ? _]
  | |- frames _ _ (emit _) => apply frames_emit
  | |- frames _ _ (ret _) => now apply frames_ret
  end.

Lemma frames_prepare (n : nat) (df : loc) : frames n (fun _ => True) (prepare df).
Proof. unfold prepare. repeat frame_step. Qed.

Lemma frames_show_tabs (n : nat) (a b c : loc) :
  frames n (fun _ => True) (show_tabs a b c).
Proof. unfold show_tabs. repeat frame_step. Qed.

Lemma frames_predict (n : nat) (df : loc) : frames n (fun _ => True) (predict df).
Proof. unfold predict. repeat frame_step. Qed.

Lemma frames_dashboard (n : nat) (df : loc) :
  frames n (fun _ => True) (dashboard df).
Proof.
  unfold dashboard.
  eapply frames_bind; [apply frames_prepare | intros v _].
  eapply frames_bind; [apply frames_show_tabs | intros _ _].
  apply frames_predict.
Qed.

(** ** C9: the views leave the data set as it is *)

(** C9. Whatever the store holds when the tables, the charts and the
    prediction are computed (lines 50-166), every object it held before,
    the loaded data set among them, is the same object with the same rows
    and columns afterwards, however the run ends: each statement makes a
    new object, and the two assignments in place (the column names and the
    Total column) change the new pivot table only. *)
Theorem dashboard_leaves_dataset (df : loc) (s : State) (l : loc) (o : Obj) :
  nth_error (heap s) l = Some o ->
  nth_error (heap (snd (dashboard df s))) l = Some o.
Proof.
  intros E.
  destruct (frames_dashboard (length (heap s)) df s (le_n _)) as [[_ U] _].
  rewrite U; [exact E|].
  apply nth_error_Some. congruence.
Qed.

Lemma dashboard_leaves_dataset_witness :
  nth_error (heap (snd (dashboard 0%nat sample_loaded))) 0%nat
  = Some (OFrame (header sample_file) sample_results).
Proof.
  apply (dashboard_leaves_dataset 0%nat sample_loaded 0%nat
           (OFrame (header sample_file) sample_results)).
  reflexivity.
Defined.

(** ** Loading *)

Lemma columns_present_ok (names hdr : list string) :
  (forall c, In c names -> In c hdr) -> columns_present names hdr = Ok tt.
Proof.
  induction names as [|c names IH]; intros H; simpl; [reflexivity|].
  destruct (in_dec string_dec c hdr) as [_|N].
  - apply IH. intros c' I. apply H. now right.
  - exfalso. apply N, H. now left.
Qed.

Lemma columns_present_missing (c : string) (hdr : list string) :
  ~ In c hdr -> columns_present [c] hdr = Raise (KeyError c).
Proof.
  intros N. simpl. now destruct (in_dec string_dec c hdr).
Qed.

Lemma pivot_keys_has_position (df : DataFrame) :
  pivot_keys (filter has_position df) = pivot_keys df.
Proof.
  unfold pivot_keys, has_position.
  induction df as [|r df IH]; simpl; [reflexivity|].
  destruct (position r) eqn:E; simpl; [rewrite E|]; now rewrite IH.
Qed.

Section LoadFacts.
Variable parse_number : string -> option Q.

Lemma load_Done (w : World) (raw : RawFrame) (s : State) :
  read_csv w = Ok raw ->
  In "position"%string (header raw) -> In "year"%string (header raw) ->
  load parse_number w s
  = (Done (length (heap s)),
     {| heap := heap s ++ [OFrame (header raw)
                             (map (with_numeric_position parse_number) (raw_rows raw))];
        output := output s ++ [st_success (length (raw_rows raw))
                                 (series_min (map raw_year (raw_rows raw)))
                                 (series_max (map raw_year (raw_rows raw)))] |}).
Proof.
  intros R P Y. unfold load, bind, lift. rewrite R. cbn beta iota delta [ret].
  rewrite !columns_present_ok by (intros c [<-|[]]; assumption).
  reflexivity.
Qed.

(** C7. For every file that has the position and year columns, whatever
    its position cells hold, loading does not fail; a row whose position
    is empty, or a text that is no number, gets a missing position, and
    is not among the podium rows; and a row with a missing position is in
    no group of the pivot table: taking the row out leaves the table as it
    is, and the table is the one of the rows that have a position. *)
Theorem unparseable_position_is_missing (w : World) (raw : RawFrame) (s : State) :
  read_csv w = Ok raw ->
  In "position"%string (header raw) -> In "year"%string (header raw) ->
  fst (load parse_number w s) = Done (length (heap s)) /\
  nth_error (heap (snd (load parse_number w s))) (length (heap s))
  = Some (OFrame (header raw) (map (with_numeric_position parse_number) (raw_rows raw))) /\
  (forall r, In r (raw_rows raw) ->
     raw_position r = CNaN \/
     (exists t, raw_position r = CStr t /\ parse_number t = None) ->
     position (with_numeric_position parse_number r) = None /\
     ~ In (with_numeric_position parse_number r)
          (podium (map (with_numeric_position parse_number) (raw_rows raw)))) /\
  (forall r, position r = None ->
     (forall df, ~ In r (podium df)) /\
     (forall df1 df2,
        pivot_table_size (df1 ++ r :: df2) = pivot_table_size (df1 ++ df2)) /\
     (forall df, pivot_table_size df = pivot_table_size (filter has_position df))).
Proof.
  intros R P Y. rewrite (load_Done w raw s R P Y). cbn [fst snd heap].
  split; [reflexivity|]. split.
  { rewrite nth_error_app2 by lia. now rewrite Nat.sub_diag. }
  assert (N : forall df r, position r = None -> ~ In r (podium df)).
  { intros df r E I. apply filter_In in I. rewrite E in I.
    destruct I. discriminate. }
  split.
  - intros r _ C.
    assert (E : position (with_numeric_position parse_number r) = None).
    { destruct C as [C|[t [C T]]]; simpl; now rewrite C. }
    split; [exact E | now apply N].
  - intros r E. split; [intros df; now apply N|]. split.
    + intros df1 df2. unfold pivot_table_size, pivot_keys.
      rewrite !flat_map_app. simpl. now rewrite E.
    + intros df. unfold pivot_table_size. now rewrite pivot_keys_has_position.
Qed.


(** The run once the file is known to be there. *)
Lemma main_file (w : World) (s : State) :
  file_exists w = true ->
  main parse_number w s
  = bind (try_except (load parse_number w)
            (fun e => emit (st_error (LoadError e)) ;; st_stop))
         dashboard
         {| heap := heap s; output := output s ++ preamble |}.
Proof.
  intros E. unfold main.
  unfold bind at 1 2 3 4. unfold emit. simpl. rewrite E. simpl.
  now rewrite <- !app_assoc.
Qed.

Lemma main_load_error (w : World) (s : State) (e : Exn) (h : list Obj) :
  file_exists w = true ->
  load parse_number w {| heap := heap s; output := output s ++ preamble |}
  = (Failed e, {| heap := h; output := output s ++ preamble |}) ->
  main parse_number w s
  = (Stopped,
     {| heap := h; output := output s ++ preamble ++ [st_error (LoadError e)] |}).
Proof.
  intros E L. rewrite (main_file w s E).
  unfold bind at 1. unfold try_except.  rewrite L.
  unfold bind, emit, st_stop. simpl. now rewrite <- app_assoc.
Qed.

End LoadFacts.

(** ** A complete run *)


Lemma numeric_dtype_rows {R} (rows : list R) :
  rows <> [] -> numeric_dtype rows = Ok tt.
Proof. destruct rows; [congruence | reflexivity]. Qed.


(** Running the statements, the tables left as they are. *)
Ltac run_script :=
  cbv delta [bind get new put emit ret lift raise];
  cbn -[columns_present numeric_dtype head nlargest groupby_sum groupby_size driver_trend_of
        cons_trend_all top_constructors_of cons_trend_of podium pivot_table_size
        set_columns add_row_sum rank_by_total recent_years series_div
        sort_values_desc dropna project headline_of index emit_all map].



(** ** C5: the podium table needs all three places *)

(** The pivot table has one column per place that occurs among the podium
    rows, so [podium_count] is produced exactly when there are three. *)
Lemma podium_count_defined (df : DataFrame) :
  length (columns (pivot_table_size (podium df))) = 3%nat ->
  exists t, podium_count df = Ok t.
Proof.
  intros L. unfold podium_count, set_columns. rewrite L. simpl Nat.eqb.
  cbn iota. unfold rbind at 1.
  unfold rank_by_total, sort_by_column_desc, add_row_sum.
  cbn [columns map app podium_names].
  destruct (columns (pivot_table_size (podium df))) as [|a [|b [|c [|]]]];
    try discriminate.
  cbn [map app column_pos]. eexists. reflexivity.
Qed.

Lemma podium_count_raises (df : DataFrame) :
  length (columns (pivot_table_size (podium df))) <> 3%nat ->
  podium_count df
  = Raise (LengthMismatch (length (columns (pivot_table_size (podium df)))) 3).
Proof.
  intros L. unfold podium_count, set_columns.
  destruct (Nat.eqb_spec (length podium_names)
              (length (columns (pivot_table_size (podium df))))) as [E|E].
  - change (length podium_names) with 3%nat in E. congruence.
  - reflexivity.
Qed.

Lemma isin_num_places (p : option Q) :
  isin_num places p = true <->
  exists q, p = Some q /\ In (Qred q) places.
Proof.
  unfold isin_num, places. destruct p as [q|].
  - rewrite existsb_exists. split.
    + intros [x [I E]]. exists q. split; [reflexivity|].
      apply Qeq_bool_iff, Qred_complete in E. rewrite E.
      simpl in I. simpl.
      destruct I as [<-|[<-|[<-|[]]]]; vm_compute; tauto.
    + intros [q' [[= <-] I]].
      assert (E : forall x, Qred q = Qred x -> Qeq_bool q x = true)
        by (intros x E; now apply Qeq_bool_iff, Qred_eq_iff).
      simpl in I. destruct I as [I|[I|[I|[]]]].
      * exists (1#1)%Q. split; [simpl; tauto | now apply E].
      * exists (2#1)%Q. split; [simpl; tauto | now apply E].
      * exists (3#1)%Q. split; [simpl; tauto | now apply E].
  - split; [discriminate | intros [q [E _]]; discriminate].
Qed.

(** The columns of the pivot table of the podium rows: the places that
    occur. *)
Lemma podium_columns_In (df : DataFrame) (c : Q) :
  In c (group_keys snd (pivot_keys (podium df))) <->
  In c places /\ exists r q, In r df /\ position r = Some q /\ Qred q = c.
Proof.
  rewrite group_keys_In. unfold pivot_keys. split.
  - intros [[d c'] [I E]]. simpl in E. subst c'.
    apply in_flat_map in I. destruct I as [r [I K]].
    apply filter_In in I. destruct I as [I F].
    change [(1#1)%Q; (2#1)%Q; (3#1)%Q] with places in F.
    apply isin_num_places in F. destruct F as [q [Eq Pl]].
    rewrite Eq in K. simpl in K. destruct K as [[= _ <-]|[]].
    split; [exact Pl|]. now exists r, q.
  - intros [Pl [r [q [I [Eq <-]]]]].
    exists (driver r, Qred q). split; [|reflexivity].
    apply in_flat_map. exists r. split.
    + apply filter_In. split; [exact I|].
      change [(1#1)%Q; (2#1)%Q; (3#1)%Q] with places.
      apply isin_num_places. now exists q.
    + rewrite Eq. now left.
Qed.

(** The table has its three columns exactly when the first, the second and
    the third place each occur in the data. *)
Lemma podium_columns_three (df : DataFrame) :
  length (columns (pivot_table_size (podium df))) = 3%nat <->
  forall p, In p places ->
    exists r q, In r df /\ position r = Some q /\ Qred q = p.
Proof.
  unfold pivot_table_size. cbn [columns]. rewrite length_map.
  set (cols := group_keys snd (pivot_keys (podium df))).
  assert (ND : NoDup cols) by apply group_keys_NoDup.
  assert (Sub : incl cols places)
    by (intros c I; now apply podium_columns_In in I).
  assert (NP : NoDup places).
  { unfold places. repeat constructor; simpl; intuition discriminate. }
  split.
  - intros L p I.
    assert (Inc : incl places cols)
      by (apply NoDup_length_incl; [exact ND | rewrite L; simpl; lia | exact Sub]).
    now apply (podium_columns_In df p), Inc.
  - intros All.
    assert (Inc : incl places cols).
    { intros p I. apply podium_columns_In. split; [exact I | now apply All]. }
    assert (A := NoDup_incl_length ND Sub).
    assert (B := NoDup_incl_length NP Inc).
    simpl in A, B. lia.
Qed.

(** C5. On a data set with a single result, a win, only one place occurs:
    the pivot table has one column, the three names do not fit it, and
    [podium_count] raises the length mismatch instead of a table with the
    columns "1st", "2nd", "3rd" and zeros for the absent places; the
    script ends there with that exception. *)
Theorem podium_count_single_win :
  map (fun r => (driver r, position r)) (podium single_win)
  = [("DriverA"%string, Some (1#1)%Q)] /\
  podium_count single_win = Raise (LengthMismatch 1 3) /\
  fst (dashboard 0%nat {| heap := [OFrame expected_columns single_win]; output := [] |})
  = Failed (LengthMismatch 1 3).
Proof. repeat split; vm_compute; reflexivity. Qed.

(** ** Runs of the sample *)

Lemma unparseable_position_is_missing_witness :
  fst (load sample_parse sample_world start) = Done 0%nat /\
  map position (map (with_numeric_position sample_parse) (raw_rows sample_file))
  = [Some (1#1)%Q; Some (2#1)%Q; Some (3#1)%Q; None; None].
Proof.
  split; [|reflexivity].
  apply (unparseable_position_is_missing sample_parse sample_world sample_file start
           eq_refl).
  - simpl. tauto.
  - simpl. tauto.
Defined.

(** ** C8: what stops a run, and what does not *)

Lemma columns_present_cons (c : string) (names hdr : list string) :
  In c hdr -> columns_present (c :: names) hdr = columns_present names hdr.
Proof. intros I. simpl. now destruct (in_dec string_dec c hdr). Qed.

Lemma columns_present_cons_missing (c : string) (names hdr : list string) :
  ~ In c hdr -> columns_present (c :: names) hdr = Raise (KeyError c).
Proof. intros N. simpl. now destruct (in_dec string_dec c hdr). Qed.

(** What the page holds when the sample of the data has been shown. *)
Lemma main_loaded (parse_number : string -> option Q) (w : World) (raw : RawFrame) :
  file_exists w = true -> read_csv w = Ok raw ->
  In "position"%string (header raw) -> In "year"%string (header raw) ->
  main parse_number w start
  = dashboard 0%nat
      {| heap := [OFrame (header raw)
                    (map (with_numeric_position parse_number) (raw_rows raw))];
         output := preamble
                     ++ [st_success (length (raw_rows raw))
                           (series_min (map raw_year (raw_rows raw)))
                           (series_max (map raw_year (raw_rows raw)))] |}.
Proof.
  intros E R P Y. rewrite (main_file parse_number w start E).
  unfold bind at 1. unfold try_except.
  rewrite (load_Done parse_number w raw _ R P Y).
  reflexivity.
Qed.

Lemma dashboard_no_driver (hdr : list string) (df : DataFrame) (out : list Event) :
  ~ In "driver"%string hdr ->
  dashboard 0%nat {| heap := [OFrame hdr df]; output := out |}
  = (Failed (KeyError "driver"),
     {| heap := [OFrame hdr df];
        output := out ++ [st_expander; st_dataframe (head 10 df)] |}).
Proof.
  intros N. unfold dashboard, prepare, read_frame. run_script.
  change (columns_present [] hdr) with (Ok tt : Result unit). run_script.
  rewrite (columns_present_cons_missing _ _ _ N). run_script.
  now rewrite <- app_assoc.
Qed.

Lemma dashboard_no_points (hdr : list string) (df : DataFrame) (out : list Event) :
  In "driver"%string hdr -> ~ In "points"%string hdr ->
  dashboard 0%nat {| heap := [OFrame hdr df]; output := out |}
  = (Failed (KeyError "points"),
     {| heap := [OFrame hdr df];
        output := out ++ [st_expander; st_dataframe (head 10 df)] |}).
Proof.
  intros D N. unfold dashboard, prepare, read_frame. run_script.
  change (columns_present [] hdr) with (Ok tt : Result unit). run_script.
  rewrite (columns_present_cons _ _ _ D), (columns_present_cons_missing _ _ _ N).
  run_script. now rewrite <- app_assoc.
Qed.


Lemma dashboard_no_constructor (hdr : list string) (df : DataFrame)
    (out : list Event) :
  df <> [] ->
  In "driver"%string hdr -> In "points"%string hdr -> In "year"%string hdr ->
  ~ In "constructor"%string hdr ->
  dashboard 0%nat {| heap := [OFrame hdr df]; output := out |}
  = (Failed (KeyError "constructor"),
     {| heap := [OFrame hdr df; OIndex (top_drivers df); OTrend (driver_trend df)];
        output := out ++ [st_expander; st_dataframe (head 10 df)] |}).
Proof.
  intros Rows D P Y N. apply numeric_dtype_rows in Rows.
  unfold dashboard, prepare, read_frame, read_index. run_script.
  change (columns_present [] hdr) with (Ok tt : Result unit). run_script.
  rewrite (columns_present_ok ["driver"; "points"]%string hdr)
    by (simpl; intuition (subst; assumption)).
  run_script. rewrite Rows. run_script.
  rewrite (columns_present_ok ["driver"; "year"; "points"]%string hdr)
    by (simpl; intuition (subst; assumption)).
  run_script.
  rewrite (columns_present_cons_missing _ _ _ N). run_script.
  now rewrite <- app_assoc.
Qed.






(** The sample file without its constructor column: nothing in the [try]
    reads that column, so that the load succeeds and its message is
    written, the sample of the data is shown, the six drivers and their
    season totals are computed, and line 63 raises the [KeyError], which
    ends the script; it is not stopped by [st.stop()], and no error message
    is written. *)
Lemma missing_constructor_not_caught :
  let run := main sample_parse
               {| file_exists := true; read_csv := Ok no_constructor_file |} start in
  ~ In "constructor"%string (header no_constructor_file) /\
  fst run = Failed (KeyError "constructor") /\
  fst run <> Stopped /\
  output (snd run)
  = preamble
      ++ [st_success 5 (Some 2021) (Some 2024); st_expander;
          st_dataframe (map (with_numeric_position sample_parse)
                            (raw_rows no_constructor_file))] /\
  existsb shows_data (output (snd run)) = true /\
  (forall m, ~ In (st_error m) (output (snd run))) /\
  length (heap (snd run)) = 3%nat /\
  nth_error (heap (snd run)) 1
  = Some (OIndex ["DriverA"; "DriverB"; "DriverC"]%string).
Proof.
  cbv zeta. split; [simpl; intuition discriminate|].
  split; [vm_compute; reflexivity|].
  split; [vm_compute; discriminate|].
  split; [vm_compute; reflexivity|].
  split; [vm_compute; reflexivity|].
  split; [|split; vm_compute; reflexivity].
  intros m I. vm_compute in I.
  repeat (destruct I as [I|I]; [discriminate I|]). destruct I.
Qed.

(** * More of the script *)

(** ** Groups and selections *)


(** ** Two-level keys *)

Lemma key_eqb_Z (x y : Z) : key_eqb x y = (x =? y).
Proof.
  apply Bool.eq_iff_eq_true. now rewrite key_eqb_true, Z.eqb_eq.
Qed.

Lemma key_eqb_pair {A B} `{Key A} `{Key B} (a a' : A) (b b' : B) :
  key_eqb (a, b) (a', b') = key_eqb a a' && key_eqb b b'.
Proof.
  apply Bool.eq_iff_eq_true.
  rewrite andb_true_iff, !key_eqb_true. split.
  - now intros [= -> ->].
  - now intros [-> ->].
Qed.

(** The group of a (label, season) key. *)
Lemma group_season {R} (label : R -> string) (season : R -> Z)
    (a : string) (y : Z) (rows : list R) :
  group (fun r => (label r, season r)) (a, y) rows
  = filter (fun r => key_eqb (label r) a && (season r =? y)) rows.
Proof.
  unfold group. apply filter_ext. intros r.
  now rewrite key_eqb_pair, key_eqb_Z.
Qed.

(** ** The cells of the pivot table *)


Lemma podium_has_position (df : DataFrame) (r : Row) :
  In r (podium df) -> has_position r = true.
Proof.
  intros I. apply filter_In in I. destruct I as [_ I].
  now apply isin_num_has_position in I.
Qed.

Lemma pivot_keys_drivers (df : DataFrame) :
  (forall r, In r df -> has_position r = true) ->
  map fst (pivot_keys df) = map driver df.
Proof.
  unfold pivot_keys, has_position.
  induction df as [|r df IH]; intros A; simpl; [reflexivity|].
  assert (E := A r (or_introl eq_refl)).
  destruct (position r); [|discriminate]. simpl. f_equal.
  apply IH. intros r' I. apply A. now right.
Qed.


(** ** X6, X7: the podium table (lines 68-77) *)

Lemma places_canonical (p q : Q) : In p places -> (Qred q = p <-> (q == p)%Q).
Proof.
  intros I.
  assert (C : Qred p = p)
    by (unfold places in I; simpl in I;
        destruct I as [<-|[<-|[<-|[]]]]; reflexivity).
  rewrite <- C at 1. apply Qred_eq_iff.
Qed.

Lemma podium_columns_le (df : DataFrame) :
  (length (columns (pivot_table_size (podium df))) <= 3)%nat.
Proof.
  unfold pivot_table_size. cbn [columns]. rewrite length_map.
  apply (@NoDup_incl_length _ _ places); [apply group_keys_NoDup|].
  intros c I. now apply podium_columns_In in I.
Qed.

(** X6. The podium table is produced exactly when the data has a first, a
    second and a third place; otherwise the three column names do not fit
    the fewer columns of the pivot table, and the assignment of line 75
    raises the length mismatch. *)
Theorem podium_count_exists_iff (df : DataFrame) :
  ((exists t, podium_count df = Ok t) <->
   forall p, In p places ->
     exists r q, In r df /\ position r = Some q /\ (q == p)%Q) /\
  (forall e, podium_count df = Raise e ->
     exists k, (k < 3)%nat /\ e = LengthMismatch k 3).
Proof.
  split; [split|].
  - intros [t E] p I. apply podium_count_Ok in E. destruct E as [L _].
    destruct (proj1 (podium_columns_three df) L p I) as [r [q [A [B C]]]].
    exists r, q. split; [exact A|]. split; [exact B|].
    now apply (places_canonical p q I).
  - intros A. apply podium_count_defined, podium_columns_three.
    intros p I. destruct (A p I) as [r [q [B [C D]]]].
    exists r, q. split; [exact B|]. split; [exact C|].
    now apply (places_canonical p q I).
  - intros e E.
    destruct (Nat.eq_dec (length (columns (pivot_table_size (podium df)))) 3)
      as [L|L].
    + destruct (podium_count_defined df L) as [t T]. congruence.
    + rewrite (podium_count_raises df L) in E. injection E as <-.
      exists (length (columns (pivot_table_size (podium df)))).
      split; [|reflexivity].
      assert (B := podium_columns_le df). lia.
Qed.

Lemma podium_count_exists_iff_witness :
  exists k, (k < 3)%nat /\ LengthMismatch 1 3 = LengthMismatch k 3.
Proof.
  apply (proj2 (podium_count_exists_iff single_win)). reflexivity.
Defined.

Lemma NoDup_firstn {A} (n : nat) (l : list A) : NoDup l -> NoDup (firstn n l).
Proof.
  intros N. rewrite <- (firstn_skipn n l) in N.
  now apply NoDup_app_remove_r in N.
Qed.

(** X7. When the podium table is produced, it lists [min 10 n] drivers,
    [n] the number of drivers with a podium result, each only once and
    each with at least one podium result, those with more podium results
    first; and no driver left out has more podium results than a driver
    listed. *)
Theorem podium_count_ranking (df : DataFrame) (t : Table) :
  podium_count df = Ok t ->
  length (rows t) = Nat.min 10 (length (group_keys driver (podium df))) /\
  NoDup (map fst (rows t)) /\
  StronglySorted (fun x y => Zsum (snd y) <= Zsum (snd x)) (rows t) /\
  (forall d cells, In (d, cells) (rows t) ->
     1 <= Zsum cells /\ exists r, In r (podium df) /\ driver r = d) /\
  (forall d cells d', In (d, cells) (rows t) ->
     In d' (group_keys driver (podium df)) -> ~ In d' (map fst (rows t)) ->
     Z.of_nat (length (group driver d' (podium df))) <= Zsum cells).
Proof.
  intros Hok.
  destruct (podium_count_Ok df t Hok) as [_ [_ [ranked [Pm [S Rt]]]]].
  assert (Keys : group_keys fst (pivot_keys (podium df))
                 = group_keys driver (podium df)).
  { unfold group_keys.
    now rewrite (pivot_keys_drivers (podium df) (podium_has_position df)). }
  assert (Idx : map fst (rows (pivot_table_size (podium df)))
                = group_keys driver (podium df)).
  { unfold pivot_table_size. cbn [rows]. rewrite map_map. cbn [fst].
    now rewrite map_id. }
  assert (Cnt : forall d cells, In (d, cells) (rows (pivot_table_size (podium df))) ->
            Zsum cells = Z.of_nat (length (group driver d (podium df)))).
  { intros d cells I. apply pivot_table_size_row in I.
    destruct I as [_ [_ E]]. rewrite E. do 2 f_equal.
    apply filter_ext_in. intros r Ir.
    rewrite (podium_has_position df r Ir). apply andb_true_r. }
  assert (Back : forall e, In e (rows t) -> In e (rows (pivot_table_size (podium df)))).
  { intros e I. rewrite Rt in I. apply In_firstn in I.
    now apply (Permutation_in _ (Permutation_sym Pm)). }
  split; [|split; [|split; [|split]]].
  - rewrite Rt. unfold head. rewrite length_firstn. f_equal.
    rewrite <- (Permutation_length Pm), <- Idx. now rewrite length_map.
  - rewrite Rt. unfold head. rewrite <- firstn_map. apply NoDup_firstn.
    apply (Permutation_NoDup (Permutation_map fst Pm)).
    rewrite Idx. apply group_keys_NoDup.
  - rewrite Rt. now apply StronglySorted_firstn.
  - intros d cells I. apply Back in I.
    assert (K : In d (group_keys driver (podium df)))
      by (rewrite <- Idx; apply in_map_iff; now exists (d, cells)).
    rewrite (Cnt d cells I). split.
    + apply group_keys_nonempty in K.
      destruct (group driver d (podium df)); [congruence | simpl; lia].
    + now apply group_keys_In in K.
  - intros d cells d' I K O.
    rewrite <- Idx in K. apply in_map_iff in K.
    destruct K as [[d0 cells'] [E K]]. simpl in E. subst d0.
    rewrite <- (Cnt d' cells' K).
    assert (K' := Permutation_in _ Pm K).
    rewrite <- (firstn_skipn 10 ranked) in K', S.
    apply in_app_or in K'. destruct K' as [K'|K'].
    + exfalso. apply O. rewrite Rt. apply in_map_iff. now exists (d', cells').
    + rewrite Rt in I.
      exact (StronglySorted_app _ _ _ S (d, cells) (d', cells') I K').
Qed.

Lemma podium_count_ranking_witness :
  1 <= Zsum [1; 1; 0] /\
  exists r, In r (podium sample_results) /\ driver r = "DriverA"%string.
Proof.
  apply (proj1 (proj2 (proj2 (proj2
           (podium_count_ranking sample_results
              {| columns := map LStr podium_names;
                 rows := [ ("DriverA"%string, [1; 1; 0]);
                           ("DriverB"%string, [0; 0; 1]);
                           ("DriverC"%string, [1; 0; 0]);
                           ("DriverD"%string, [0; 1; 0]) ] |}
              eq_refl))))).
  left. reflexivity.
Defined.

(** ** X8, X9: the load (lines 42-48) *)

Lemma fold_min_spec (l : list Z) (x : Z) :
  (fold_left Z.min l x = x \/ In (fold_left Z.min l x) l) /\
  fold_left Z.min l x <= x /\
  forall y, In y l -> fold_left Z.min l x <= y.
Proof.
  revert x. induction l as [|a l IH]; intros x; simpl.
  - split; [now left|]. split; [lia | tauto].
  - destruct (IH (Z.min x a)) as [M [B A]]. split; [|split].
    + destruct M as [M|M]; [|now right; right].
      rewrite M. destruct (Z.min_spec x a) as [[_ E]|[_ E]]; rewrite E; auto.
    + lia.
    + intros y [<-|I]; [lia | now apply A].
Qed.

Lemma fold_max_spec (l : list Z) (x : Z) :
  (fold_left Z.max l x = x \/ In (fold_left Z.max l x) l) /\
  x <= fold_left Z.max l x /\
  forall y, In y l -> y <= fold_left Z.max l x.
Proof.
  revert x. induction l as [|a l IH]; intros x; simpl.
  - split; [now left|]. split; [lia | tauto].
  - destruct (IH (Z.max x a)) as [M [B A]]. split; [|split].
    + destruct M as [M|M]; [|now right; right].
      rewrite M. destruct (Z.max_spec x a) as [[_ E]|[_ E]]; rewrite E; auto.
    + lia.
    + intros y [<-|I]; [lia | now apply A].
Qed.

Lemma series_min_max (l : list Z) (y : Z) :
  In y l ->
  exists lo hi,
    series_min l = Some lo /\ series_max l = Some hi /\
    lo <= y <= hi /\ In lo l /\ In hi l.
Proof.
  destruct l as [|x l]; [intros []|]. intros I.
  exists (fold_left Z.min l x), (fold_left Z.max l x).
  destruct (fold_min_spec l x) as [M1 [B1 A1]].
  destruct (fold_max_spec l x) as [M2 [B2 A2]].
  split; [reflexivity|]. split; [reflexivity|]. split; [|split].
  - destruct I as [<-|I]; [lia|]. specialize (A1 y I). specialize (A2 y I). lia.
  - destruct M1 as [->|M1]; [now left | now right].
  - destruct M2 as [->|M2]; [now left | now right].
Qed.

(** X8. A file with the position and year columns loads with one success
    message: it gives the number of results and the first and the last
    season of the file, which are seasons of the file with every season
    between them; for a file without results both are missing and the
    load still succeeds. *)
Theorem load_message (parse_number : string -> option Q)
    (w : World) (raw : RawFrame) (s : State) :
  read_csv w = Ok raw ->
  In "position"%string (header raw) -> In "year"%string (header raw) ->
  exists first last,
    fst (load parse_number w s) = Done (length (heap s)) /\
    output (snd (load parse_number w s))
    = output s ++ [st_success (length (raw_rows raw)) first last] /\
    (raw_rows raw = [] -> first = None /\ last = None) /\
    (forall r, In r (raw_rows raw) ->
       exists lo hi, first = Some lo /\ last = Some hi /\
                     lo <= raw_year r <= hi /\
                     In lo (map raw_year (raw_rows raw)) /\
                     In hi (map raw_year (raw_rows raw))).
Proof.
  intros R P Y.
  exists (series_min (map raw_year (raw_rows raw))),
         (series_max (map raw_year (raw_rows raw))).
  rewrite (load_Done parse_number w raw s R P Y). cbn [fst snd output].
  split; [reflexivity|]. split; [reflexivity|]. split.
  - intros ->. split; reflexivity.
  - intros r I. apply series_min_max. now apply in_map.
Qed.

Lemma load_message_witness :
  exists first last,
    output (snd (load sample_parse sample_world start))
    = [st_success 5 first last] /\
    (forall r, In r (raw_rows sample_file) ->
       exists lo hi, first = Some lo /\ last = Some hi /\ lo <= raw_year r <= hi).
Proof.
  destruct (load_message sample_parse sample_world sample_file start eq_refl)
    as [first [last [_ [O [_ A]]]]].
  - simpl. tauto.
  - simpl. tauto.
  - exists first, last. split; [exact O|].
    intros r I. destruct (A r I) as [lo [hi [E1 [E2 [B _]]]]].
    now exists lo, hi.
Defined.

(** X9. When the file has the position column and no year column, the
    success message fails on the seasons: the run stops after one error
    message naming the year column, with the data set loaded and nothing
    of it shown. *)
Theorem main_no_year (parse_number : string -> option Q)
    (w : World) (raw : RawFrame) (s : State) :
  file_exists w = true -> read_csv w = Ok raw ->
  In "position"%string (header raw) -> ~ In "year"%string (header raw) ->
  main parse_number w s
  = (Stopped,
     {| heap := heap s ++ [OFrame (header raw)
                             (map (with_numeric_position parse_number) (raw_rows raw))];
        output := output s ++ preamble
                    ++ [st_error (LoadError (KeyError "year"))] |}).
Proof.
  intros E R P Y. apply main_load_error; [exact E|].
  unfold load, bind, lift. rewrite R. cbn beta iota delta [ret].
  rewrite (columns_present_ok ["position"%string] (header raw))
    by (intros c [<-|[]]; exact P).
  unfold new. cbn beta iota.
  now rewrite (columns_present_missing _ _ Y).
Qed.

Lemma main_no_year_witness :
  main sample_parse
    {| file_exists := true;
       read_csv := Ok {| header := ["driver"; "position"; "points"]%string;
                         raw_rows := [] |} |} start
  = (Stopped,
     {| heap := [OFrame ["driver"; "position"; "points"]%string []];
        output := preamble ++ [st_error (LoadError (KeyError "year"))] |}).
Proof.
  apply (main_no_year sample_parse
           {| file_exists := true;
              read_csv := Ok {| header := ["driver"; "position"; "points"]%string;
                                raw_rows := [] |} |}
           {| header := ["driver"; "position"; "points"]%string; raw_rows := [] |}
           start eq_refl eq_refl).
  - simpl. tauto.
  - simpl. intuition discriminate.
Defined.

(** ** X10, X11, X12: how a run ends *)

(** X10. A file that has the position and year columns loads, and a
    missing driver, points or constructor column is found only afterwards:
    the run ends with the [KeyError] of that column, which nothing catches,
    after the success message and the sample of the data, and before any
    chart. *)
Theorem uncaught_missing_column (parse_number : string -> option Q)
    (w : World) (raw : RawFrame) :
  file_exists w = true -> read_csv w = Ok raw ->
  In "position"%string (header raw) -> In "year"%string (header raw) ->
  raw_rows raw <> [] ->
  forall c, In c ["driver"; "points"; "constructor"]%string ->
    ~ In c (header raw) ->
    exists c' h,
      In c' ["driver"; "points"; "constructor"]%string /\
      ~ In c' (header raw) /\
      (In c' ["points"; "constructor"]%string -> In "driver"%string (header raw)) /\
      (c' = "constructor"%string -> In "points"%string (header raw)) /\
      main parse_number w start
      = (Failed (KeyError c'),
         {| heap := h;
            output := preamble
                        ++ [st_success (length (raw_rows raw))
                              (series_min (map raw_year (raw_rows raw)))
                              (series_max (map raw_year (raw_rows raw)));
                            st_expander;
                            st_dataframe
                              (head 10 (map (with_numeric_position parse_number)
                                            (raw_rows raw)))] |}).
Proof.
  intros E R P Y Rows c Ic Nc.
  rewrite (main_loaded parse_number w raw E R P Y).
  destruct (in_dec string_dec "driver"%string (header raw)) as [D|D].
  - destruct (in_dec string_dec "points"%string (header raw)) as [Q|Q].
    + assert (N : ~ In "constructor"%string (header raw)).
      { simpl in Ic. destruct Ic as [<-|[<-|[<-|[]]]]; tauto. }
      assert (Rows' : map (with_numeric_position parse_number) (raw_rows raw) <> [])
        by (destruct (raw_rows raw); [congruence | discriminate]).
      exists "constructor"%string. eexists.
      rewrite (dashboard_no_constructor _ _ _ Rows' D Q Y N).
      rewrite <- app_assoc.
      repeat split; simpl; auto.
    + exists "points"%string. eexists.
      rewrite (dashboard_no_points _ _ _ D Q). rewrite <- app_assoc.
      repeat split; simpl; auto. discriminate.
  - exists "driver"%string. eexists.
    rewrite (dashboard_no_driver _ _ _ D). rewrite <- app_assoc.
    repeat split; simpl; auto.
    + intros [C|[C|[]]]; discriminate C.
    + discriminate.
Qed.

Lemma uncaught_missing_column_witness :
  exists c' h,
    main sample_parse {| file_exists := true; read_csv := Ok no_constructor_file |} start
    = (Failed (KeyError c'),
       {| heap := h;
          output := preamble
                      ++ [st_success 5 (Some 2021) (Some 2024); st_expander;
                          st_dataframe
                            (map (with_numeric_position sample_parse)
                                 (raw_rows no_constructor_file))] |}).
Proof.
  destruct (uncaught_missing_column sample_parse
              {| file_exists := true; read_csv := Ok no_constructor_file |}
              no_constructor_file eq_refl eq_refl)
    with (c := "constructor"%string)
    as [c' [h [_ [_ [_ [_ M]]]]]].
  - simpl. tauto.
  - simpl. tauto.
  - discriminate.
  - simpl. tauto.
  - simpl. intuition discriminate.
  - exists c', h. exact M.
Defined.








(** ** X13: the projection follows the averages (line 149) *)









(** ** X15: the lines of the headline (lines 158-161) *)




(** * The pipeline on machine numbers

    In this part the names of the pipeline are those of [Machine]. *)

Section MachineFacts.
Import Machine.

(** ** int64 sums *)












(** ** The order of a column *)

Lemma Qle_bool_total (p q : Q) : Qle_bool p q = false -> Qle_bool q p = true.
Proof.
  intros E. apply Qle_bool_iff, Qlt_le_weak, Qnot_le_lt.
  intros C. apply Qle_bool_iff in C. congruence.
Qed.

Lemma Qle_bool_trans (p q r : Q) :
  Qle_bool p q = true -> Qle_bool q r = true -> Qle_bool p r = true.
Proof.
  rewrite !Qle_bool_iff. apply Qle_trans.
Qed.

Lemma ereal_le_total (a b : ereal) : ereal_le a b = false -> ereal_le b a = true.
Proof.
  destruct a, b; simpl; try congruence; try reflexivity. apply Qle_bool_total.
Qed.

Lemma ereal_le_trans (a b c : ereal) :
  ereal_le a b = true -> ereal_le b c = true -> ereal_le a c = true.
Proof.
  destruct a, b, c; simpl; try congruence; try reflexivity. apply Qle_bool_trans.
Qed.

Lemma float_below_total (x y : float) :
  float_below x y = false -> float_below y x = true.
Proof.
  unfold float_below. destruct (as_real x), (as_real y); try congruence; try reflexivity.
  apply ereal_le_total.
Qed.

Lemma float_below_trans (x y z : float) :
  float_below x y = true -> float_below y z = true -> float_below x z = true.
Proof.
  unfold float_below.
  destruct (as_real x), (as_real y), (as_real z); try congruence; try reflexivity.
  apply ereal_le_trans.
Qed.

Lemma below_total {t} (x y : value t) : below x y = false -> below y x = true.
Proof.
  destruct t; simpl.
  - rewrite Z.leb_gt, Z.leb_le. lia.
  - apply float_below_total.
Qed.

Lemma below_trans {t} (x y z : value t) :
  below x y = true -> below y z = true -> below x z = true.
Proof.
  destruct t; simpl.
  - rewrite !Z.leb_le. lia.
  - apply float_below_trans.
Qed.

Section Order.
Context {K V : Type} (le : V -> V -> bool).
Hypothesis le_total : forall x y, le x y = false -> le y x = true.
Hypothesis le_trans : forall x y z, le x y = true -> le y z = true -> le x z = true.

(** The order [sort_values_desc] leaves the entries in. *)
Lemma sorted_desc (s : Series K V) :
  StronglySorted (fun x y => le (snd y) (snd x) = true) (sort_values_desc le s).
Proof.
  apply (isort_sorted (fun x y : K * V => le (snd y) (snd x))).
  - intros x y. apply le_total.
  - intros x y z A B. exact (le_trans _ _ _ B A).
Qed.

Lemma sorted_desc_perm (s : Series K V) : Permutation s (sort_values_desc le s).
Proof. apply isort_perm. Qed.

(** [nlargest] splits the Series in the entries kept and the rest, no
    value of the rest above a value kept. *)
Lemma nlargest_split (n : nat) (s : Series K V) :
  exists rest,
    Permutation s (nlargest le n s ++ rest) /\
    forall x y, In x (nlargest le n s) -> In y rest -> le (snd y) (snd x) = true.
Proof.
  exists (skipn n (sort_values_desc le s)). unfold nlargest, head. split.
  - rewrite firstn_skipn. apply sorted_desc_perm.
  - apply (StronglySorted_app (fun x y : K * V => le (snd y) (snd x) = true)).
    rewrite firstn_skipn. apply sorted_desc.
Qed.

Lemma nlargest_entries (n : nat) (s : Series K V) (e : K * V) :
  In e (nlargest le n s) -> In e s.
Proof.
  intros H. apply In_firstn in H.
  now apply (Permutation_in _ (Permutation_sym (sorted_desc_perm s))).
Qed.

Lemma nlargest_count (n : nat) (s : Series K V) :
  length (nlargest le n s) = Nat.min n (length s).
Proof.
  unfold nlargest, head, sort_values_desc.
  now rewrite length_firstn, isort_length.
Qed.

(** What [nlargest] keeps of a Series whose labels are distinct. *)
Lemma nlargest_labels (n : nat) (s : Series K V) :
  NoDup (index s) ->
  NoDup (index (nlargest le n s)) /\
  forall k v k' v',
    In (k, v) (nlargest le n s) -> In (k', v') s ->
    ~ In k' (index (nlargest le n s)) -> le v' v = true.
Proof.
  intros N. destruct (nlargest_split n s) as [rest [P L]]. split.
  - apply (Permutation_NoDup (Permutation_map fst P)) in N.
    unfold index in N. rewrite map_app in N. now apply NoDup_app_remove_r in N.
  - intros k v k' v' I I' O.
    apply (Permutation_in _ P), in_app_or in I'. destruct I' as [I'|I'].
    + exfalso. apply O, index_In. now exists v'.
    + exact (L (k, v) (k', v') I I').
Qed.
End Order.

(** ** Groups *)

Lemma groupby_sum_keys {t R K} `{Key K} (key : R -> K) (col : R -> value t)
    (rows : list R) :
  index (groupby_sum key col rows) = group_keys key rows.
Proof.
  unfold index, groupby_sum. rewrite map_map. simpl. apply map_id.
Qed.

Lemma groupby_sum_entry {t R K} `{Key K} (key : R -> K) (col : R -> value t)
    (rows : list R) (k : K) (v : value t) :
  In (k, v) (groupby_sum key col rows) <->
  In k (group_keys key rows) /\ v = group_sum (map col (group key k rows)).
Proof.
  unfold groupby_sum. rewrite in_map_iff. split.
  - intros [k' [E I]]. inversion E. subst. auto.
  - intros [I ->]. now exists k.
Qed.

Lemma groupby_sum_lookup {t R K} `{Key K} (key : R -> K) (col : R -> value t)
    (rows : list R) (k : K) :
  In k (group_keys key rows) ->
  lookup k (groupby_sum key col rows)
  = Some (group_sum (map col (group key k rows))).
Proof.
  intros I. unfold groupby_sum.
  now apply (lookup_keys (fun k => group_sum (map col (group key k rows)))).
Qed.

Lemma key_eqb_string (a b : string) : key_eqb a b = (a =? b)%string.
Proof.
  apply Bool.eq_iff_eq_true. now rewrite key_eqb_true, String.eqb_eq.
Qed.

Lemma group_driver {t} (d : string) (df : DataFrame t) :
  group driver d df = filter (fun r => (driver r =? d)%string) df.
Proof. unfold group. apply filter_ext. intros r. apply key_eqb_string. Qed.

Lemma top_drivers_Ok {t} (df : DataFrame t) :
  df <> [] -> top_drivers df = Ok (index (nlargest below 6 (driver_points df))).
Proof. intros N. unfold top_drivers. now rewrite (numeric_dtype_rows df N). Qed.

Lemma top_drivers_rows {t} (df : DataFrame t) (top : list string) :
  top_drivers df = Ok top ->
  df <> [] /\ top = index (nlargest below 6 (driver_points df)).
Proof.
  unfold top_drivers. destruct df as [|r df]; [discriminate|].
  simpl. intros [= <-]. split; [discriminate | reflexivity].
Qed.

Lemma top_drivers_keys {t} (df : DataFrame t) (top : list string) (d : string) :
  top_drivers df = Ok top -> In d top -> In d (group_keys driver df).
Proof.
  intros T I. apply top_drivers_rows in T. destruct T as [_ ->].
  apply index_In in I. destruct I as [v I].
  apply nlargest_entries in I. unfold driver_points in I.
  now apply groupby_sum_entry in I.
Qed.

(** ** C1: the season totals of a top driver and the career total *)



(** On a column of dtype float64 every addition rounds.  Here the total
    of DriverA, 1 + 0.2 + 0.4 in the order of the rows, is the float 1.6,
    while the totals of the two seasons, 0.2 and 1 + 0.4, add up to the
    float before it. *)
Lemma season_totals_rounded :
  top_drivers tenths = Ok ["DriverA"%string] /\
  lookup "DriverA"%string (driver_points tenths) = Some 1.6%float /\
  driver_trend tenths
  = Ok [ (("DriverA"%string, 2023), 0.2%float);
         (("DriverA"%string, 2024), 1.4%float) ] /\
  group_sum (t := float64) [0.2; 1.4]%float = 1.5999999999999999%float /\
  (0.2 + 1.4 = 1.5999999999999999)%float /\
  (1.5999999999999999 <? 1.6)%float = true.
Proof. repeat split; vm_compute; reflexivity. Qed.

(** ** The recent-form average *)

Lemma group_window {t} (d : string) (df : DataFrame t) :
  group driver d (recent_years df) = entries_since 2020 d df.
Proof.
  unfold group, recent_years, entries_since. rewrite filter_twice.
  apply filter_ext. intros r. f_equal. apply key_eqb_string.
Qed.

Lemma window_keys {t} (d : string) (df : DataFrame t) :
  In d (group_keys driver (recent_years df)) <-> entries_since 2020 d df <> [].
Proof. now rewrite group_keys_nonempty, group_window. Qed.

(** The division, driver by driver. *)
Lemma quotients_of_window {t} (df : DataFrame t) :
  series_div (driver_total_points df) (driver_race_count df)
  = map (fun d => (d, window_avg df d)) (group_keys driver (recent_years df)).
Proof.
  unfold series_div, align, driver_total_points, driver_race_count.
  rewrite groupby_sum_keys, groupby_size_index.
  destruct (list_eq_dec key_eq_dec _ _) as [_|N]; [|congruence].
  apply map_ext_in. intros d I. f_equal.
  rewrite (groupby_sum_lookup driver points (recent_years df) d I).
  unfold groupby_size.
  rewrite (lookup_keys
             (fun k => Z.of_nat (length (group driver k (recent_years df)))))
    by exact I.
  unfold window_avg. now rewrite group_window.
Qed.

Lemma dropna_In {K} (s : Series K float) (e : K * float) :
  In e (dropna s) <-> In e s /\ is_nan (snd e) = false.
Proof. unfold dropna. now rewrite filter_In, negb_true_iff. Qed.

Lemma driver_avg_kept {t} (df : DataFrame t) :
  Permutation
    (dropna (map (fun d => (d, window_avg df d)) (group_keys driver (recent_years df))))
    (driver_avg df).
Proof.
  unfold driver_avg. rewrite quotients_of_window.
  apply sorted_desc_perm.
Qed.

Lemma driver_avg_entry {t} (df : DataFrame t) (d : string) (v : float) :
  In (d, v) (driver_avg df) <->
  entries_since 2020 d df <> [] /\ v = window_avg df d /\ is_nan v = false.
Proof.
  rewrite <- window_keys. split.
  - intros I. apply (Permutation_in _ (Permutation_sym (driver_avg_kept df))) in I.
    apply dropna_In in I. destruct I as [I N].
    apply in_map_iff in I. destruct I as [k [E I]]. inversion E. subst. auto.
  - intros [I [-> N]]. apply (Permutation_in _ (driver_avg_kept df)).
    apply dropna_In. split; [|exact N].
    apply in_map_iff. now exists d.
Qed.

Lemma NoDup_index_filter {K V} (p : K * V -> bool) (s : Series K V) :
  NoDup (index s) -> NoDup (index (filter p s)).
Proof.
  unfold index. induction s as [|e s IH]; simpl; intros N; [constructor|].
  inversion N as [|? ? A B]. subst.
  destruct (p e); simpl; [constructor|]; auto.
  intros I. apply A. apply in_map_iff in I. destruct I as [e' [E I]].
  apply filter_In in I. apply in_map_iff. exists e'. tauto.
Qed.

Lemma driver_avg_labels {t} (df : DataFrame t) : NoDup (index (driver_avg df)).
Proof.
  unfold index.
  apply (Permutation_NoDup (Permutation_map fst (driver_avg_kept df))).
  apply NoDup_index_filter. unfold index. rewrite map_map. simpl. rewrite map_id.
  apply group_keys_NoDup.
Qed.

(** ** C4: the window of the recent-form average *)

(** The seasons of the data, latest first. *)
Lemma seasons_latest_first {t} (df : DataFrame t) :
  let seasons := isort (fun x y => Z.leb y x) (nodup Z.eq_dec (map year df)) in
  StronglySorted (fun x y => y <= x) seasons /\
  NoDup seasons /\
  forall y, In y seasons <-> exists r, In r df /\ year r = y.
Proof.
  cbv zeta. split; [|split].
  - eapply StronglySorted_ind
      with (P := fun l => StronglySorted (fun x y => y <= x) l);
      [constructor | | apply (isort_sorted (fun x y => Z.leb y x))].
    + intros a l _ IH Ha. constructor; [exact IH|].
      eapply Forall_impl; [|exact Ha].
      intros b Hb. now apply Z.leb_le in Hb.
    + intros x y E. apply Z.leb_gt in E. apply Z.leb_le. lia.
    + intros x y z A B. apply Z.leb_le in A, B. apply Z.leb_le. lia.
  - apply isort_NoDup, NoDup_nodup.
  - intros y. rewrite isort_In, nodup_In, in_map_iff.
    split; intros [r [A B]]; exists r; auto.
Qed.

(** On data whose latest seasons are 2020 to 2024, all five present, the
    window of [recent_years] is the five most recent seasons. *)
Lemma recent_years_five_seasons {t} (df : DataFrame t) :
  (forall r, In r df -> year r <= 2024) ->
  (forall y, 2020 <= y <= 2024 -> exists r, In r df /\ year r = y) ->
  most_recent_seasons 5 df = [2024; 2023; 2022; 2021; 2020] /\
  recent_years_spec df = recent_years df.
Proof.
  intros Hmax Hall.
  assert (M : most_recent_seasons 5 df = [2024; 2023; 2022; 2021; 2020]).
  { unfold most_recent_seasons.
    destruct (seasons_latest_first df) as [S [N I]]. cbv zeta in S, N, I.
    set (l := isort (fun x y => Z.leb y x) (nodup Z.eq_dec (map year df))) in *.
    assert (B : forall y, In y l -> y <= 2024)
      by (intros y Hy; apply I in Hy; destruct Hy as [r [Hr <-]]; auto).
    assert (P : forall y, 2020 <= y <= 2024 -> In y l)
      by (intros y Hy; apply I; now apply Hall).
    destruct (latest_season_first l 2024 S N B (P 2024 ltac:(lia)))
      as [l1 [-> [S1 [N1 [B1 K1]]]]].
    destruct (latest_season_first l1 2023 S1 N1 B1 (K1 2023 (P 2023 ltac:(lia)) ltac:(lia)))
      as [l2 [-> [S2 [N2 [B2 K2]]]]].
    assert (P2 : forall y, 2020 <= y <= 2022 -> In y l2)
      by (intros y Hy; apply K2; [apply K1; [apply P|]|]; lia).
    destruct (latest_season_first l2 2022 S2 N2 B2 (P2 2022 ltac:(lia)))
      as [l3 [-> [S3 [N3 [B3 K3]]]]].
    destruct (latest_season_first l3 2021 S3 N3 B3 (K3 2021 (P2 2021 ltac:(lia)) ltac:(lia)))
      as [l4 [-> [S4 [N4 [B4 K4]]]]].
    assert (P4 : In 2020 l4)
      by (apply K4; [apply K3; [apply P2|]|]; lia).
    destruct (latest_season_first l4 2020 S4 N4 B4 P4) as [l5 [-> _]].
    reflexivity. }
  split; [exact M|].
  unfold recent_years_spec, recent_years. rewrite M.
  apply filter_ext_in. intros r Hr. specialize (Hmax r Hr).
  destruct (Z.leb_spec 2020 (year r)) as [G|G].
  - apply isin_true. simpl.
    assert (C : year r = 2024 \/ year r = 2023 \/ year r = 2022 \/
                year r = 2021 \/ year r = 2020) by lia.
    intuition auto.
  - destruct (isin _ (year r)) eqn:E; [|reflexivity].
    apply isin_true in E. simpl in E. lia.
Qed.

(** C4, as amended.  For every data set, of either dtype, the recent-form
    average is taken over the rows whose season is 2020 or later, a fixed
    threshold; these are the five most recent seasons when the latest
    seasons of the data are 2020 to 2024, all five present.  A driver has
    an average exactly when the driver has a row from 2020 on and the
    quotient is a number, and then only one: the sum of the driver's
    points over these rows, taken in the dtype of the column and in the
    order of the rows, divided in float64 by the number of these rows,
    not by the length of the window.  The averages are sorted, largest
    first. *)
Theorem driver_avg_over_window {t} (df : DataFrame t) :
  (forall d v,
     In (d, v) (driver_avg df) <->
     entries_since 2020 d df <> [] /\
     v = (to_float64 (group_sum (map points (entries_since 2020 d df)))
          / of_int64 (Z.of_nat (length (entries_since 2020 d df))))%float /\
     is_nan v = false) /\
  NoDup (index (driver_avg df)) /\
  StronglySorted (fun x y => float_below (snd y) (snd x) = true) (driver_avg df) /\
  ((forall r, In r df -> year r <= 2024) ->
   (forall y, 2020 <= y <= 2024 -> exists r, In r df /\ year r = y) ->
   forall d, entries_since 2020 d df
             = filter (fun r => (driver r =? d)%string) (recent_years_spec df)).
Proof.
  split; [|split; [|split]].
  - intros d v. apply driver_avg_entry.
  - apply driver_avg_labels.
  - apply sorted_desc; [apply float_below_total | apply float_below_trans].
  - intros Hmax Hall d.
    rewrite (proj2 (recent_years_five_seasons df Hmax Hall)).
    unfold entries_since, recent_years. now rewrite filter_twice.
Qed.

Lemma driver_avg_over_window_witness :
  entries_since 2020 "DriverA"%string (sample_machine int64) <> [] /\
  21.5%float = (to_float64 (t := int64) 43%Z / of_int64 2)%float /\
  is_nan 21.5%float = false.
Proof.
  apply (proj1 (proj1 (driver_avg_over_window (sample_machine int64))
                  "DriverA"%string 21.5%float)).
  vm_compute. right. left. reflexivity.
Defined.

(** On six seasons from 2020 on, with the three places among the results
    so that the script gets as far as the prediction, the five most
    recent seasons are 2021 to 2025 and DriverA's 50 points there are 10 a
    race; [driver_avg] counts 2020 in and holds 50/6. *)
Lemma driver_avg_not_five_most_recent :
  fst (dashboard 0%nat
         {| heap := [OFrame expected_columns (map exact_points seasons_2020_2025)];
            output := [] |})
  = Done tt /\
  most_recent_seasons 5 seasons_2020_2025 = [2025; 2024; 2023; 2022; 2021] /\
  (let entries := filter (fun r => (driver r =? "DriverA")%string)
                         (recent_years_spec seasons_2020_2025) in
   map year entries = [2021; 2022; 2023; 2024; 2025] /\
   (to_float64 (group_sum (map points entries))
    / of_int64 (Z.of_nat (length entries)))%float = 10%float) /\
  driver_avg seasons_2020_2025 = [("DriverA"%string, (50 / 6)%float)] /\
  (50 / 6 <? 10)%float = true /\
  ~ In ("DriverA"%string, 10%float) (driver_avg seasons_2020_2025).
Proof.
  split; [vm_compute; reflexivity|].
  split; [vm_compute; reflexivity|].
  split; [cbv zeta; split; vm_compute; reflexivity|].
  split; [vm_compute; reflexivity|].
  split; [vm_compute; reflexivity|].
  intros I. vm_compute in I. destruct I as [I|[]].
  apply (f_equal (fun e => Prim2SF (snd e))) in I. vm_compute in I. discriminate I.
Qed.

(** ** C3: the projected points *)









(** ** X1: the six drivers of line 59 *)

Lemma driver_points_labels {t} (df : DataFrame t) : NoDup (index (driver_points df)).
Proof. unfold driver_points. rewrite groupby_sum_keys. apply group_keys_NoDup. Qed.

(** X1.  On a data set without rows line 59 raises a [TypeError].  On a
    data set with rows, of either dtype, [top_drivers] holds [min 6 n]
    drivers, [n] the number of drivers of the data, each only once and
    each a driver of the data, and no driver left out has a larger total,
    as the column adds it up, than a driver selected. *)
Theorem top_drivers_selection {t} (df : DataFrame t) :
  (df = [] -> top_drivers df = Raise TypeError) /\
  (df <> [] ->
   exists top,
     top_drivers df = Ok top /\
     length top = Nat.min 6 (length (group_keys driver df)) /\
     NoDup top /\
     (forall d, In d top -> exists r, In r df /\ driver r = d) /\
     (forall d d' r', In d top ->
        In r' df -> driver r' = d' -> ~ In d' top ->
        below (group_sum (map points (filter (fun r => (driver r =? d')%string) df)))
              (group_sum (map points (filter (fun r => (driver r =? d)%string) df)))
        = true)).
Proof.
  split; [intros ->; reflexivity|]. intros Rows.
  exists (index (nlargest below 6 (driver_points df))).
  assert (T := top_drivers_Ok df Rows).
  destruct (nlargest_labels below below_total below_trans 6 (driver_points df)
              (driver_points_labels df)) as [ND L].
  split; [exact T|]. split; [|split; [exact ND|split]].
  - unfold index. rewrite length_map, nlargest_count. f_equal.
    unfold driver_points, groupby_sum. now rewrite length_map.
  - intros d I. apply (top_drivers_keys df _ d T) in I. now apply group_keys_In in I.
  - intros d d' r' I Ir E O.
    apply index_In in I. destruct I as [v I].
    assert (Iv := nlargest_entries below _ _ _ I).
    apply groupby_sum_entry in Iv. destruct Iv as [_ Ev].
    rewrite <- !group_driver, <- Ev.
    apply (L d v d' _ I); [|exact O].
    apply groupby_sum_entry. split; [|reflexivity].
    apply group_keys_In. now exists r'.
Qed.

Lemma top_drivers_selection_witness :
  exists top,
    top_drivers (sample_machine float64) = Ok top /\
    length top = 4%nat /\ NoDup top.
Proof.
  destruct (proj2 (top_drivers_selection (sample_machine float64)))
    as [top [T [L [N _]]]]; [discriminate|].
  exists top. split; [exact T|]. split; [exact L | exact N].
Defined.

(** ** X2, X16: the entries of the trends (lines 60 and 63) *)

Lemma group_of_season {R} (label : R -> string) (season : R -> Z)
    (a : string) (y : Z) (rows : list R) :
  group (fun r => (label r, season r)) (a, y) rows
  = filter (fun r => (label r =? a)%string && (season r =? y)) rows.
Proof.
  rewrite group_season. apply filter_ext. intros r. now rewrite key_eqb_string.
Qed.

(** X2.  [driver_trend] has one entry for each selected driver and each
    season in which that driver has a result, and no other entry; the
    entry holds the sum of the points of that driver's results of that
    season, as the column adds them up in the order of the rows. *)
Theorem driver_trend_entries {t} (df : DataFrame t) (top : list string) :
  top_drivers df = Ok top ->
  exists trend,
    driver_trend df = Ok trend /\
    NoDup (index trend) /\
    forall d y v,
      In ((d, y), v) trend <->
      In d top /\
      (exists r, In r df /\ driver r = d /\ year r = y) /\
      v = group_sum (map points
                       (filter (fun r => (driver r =? d)%string && (year r =? y)) df)).
Proof.
  intros T. exists (driver_trend_of top df).
  split; [unfold driver_trend; now rewrite T|].
  unfold driver_trend_of.
  set (F := filter (fun r => isin top (driver r)) df).
  assert (G : forall d y, In d top ->
            group (fun r => (driver r, year r)) (d, y) F
            = filter (fun r => (driver r =? d)%string && (year r =? y)) df).
  { intros d y I. rewrite group_of_season. unfold F. rewrite filter_twice.
    apply filter_ext. intros r.
    destruct (String.eqb_spec (driver r) d) as [E|E]; [|apply andb_false_r].
    subst d. apply isin_true in I. now rewrite I. }
  split.
  - rewrite groupby_sum_keys. apply group_keys_NoDup.
  - intros d y v. rewrite groupby_sum_entry, group_keys_In. split.
    + intros [[r [I E]] ->]. inversion E. subst d y.
      apply filter_In in I. destruct I as [I Top]. apply isin_true in Top.
      split; [exact Top|]. split; [now exists r|]. now rewrite G.
    + intros [Top [[r [I [<- <-]]] ->]]. split.
      * exists r. split; [|reflexivity].
        apply filter_In. split; [exact I | now apply isin_true].
      * now rewrite G.
Qed.

Lemma driver_trend_entries_witness :
  exists trend,
    driver_trend tenths = Ok trend /\
    In (("DriverA"%string, 2024), 1.4%float) trend.
Proof.
  destruct (driver_trend_entries tenths ["DriverA"%string] eq_refl)
    as [trend [T [_ E]]].
  exists trend. split; [exact T|].
  apply E. split; [now left|]. split.
  - eexists. split; [left; reflexivity|]. split; reflexivity.
  - vm_compute. reflexivity.
Defined.

(** X16.  The table of line 63 has one entry for each constructor and each
    season in which the constructor has a result, and no other; the entry
    holds the sum of the points of the constructor's results of that
    season, as the column adds them up in the order of the rows. *)
Theorem cons_trend_all_entries {t} (df : DataFrame t) :
  NoDup (index (cons_trend_all df)) /\
  forall c y v,
    In ((c, y), v) (cons_trend_all df) <->
    (exists r, In r df /\ constructor r = c /\ year r = y) /\
    v = group_sum (map points
                     (filter (fun r => (constructor r =? c)%string && (year r =? y)) df)).
Proof.
  unfold cons_trend_all. split.
  - rewrite groupby_sum_keys. apply group_keys_NoDup.
  - intros c y v.
    rewrite groupby_sum_entry, group_keys_In, group_of_season. split.
    + intros [[r [I E]] ->]. inversion E. subst c y.
      split; [now exists r | reflexivity].
    + intros [[r [I [<- <-]]] ->]. split; [now exists r | reflexivity].
Qed.

Lemma cons_trend_all_entries_witness :
  In (("TeamY"%string, 2024), 40) (cons_trend_all (sample_machine int64)).
Proof.
  apply (proj2 (cons_trend_all_entries (sample_machine int64))).
  split.
  - eexists. split; [right; right; left; reflexivity|]. split; reflexivity.
  - vm_compute. reflexivity.
Defined.

(** ** X3, X4: the constructors (lines 63-65) *)

Lemma group_of_constructor {t} (c : string)
    (trend : Series (string * Z) (value t)) :
  group (fun e : (string * Z) * value t => fst (fst e)) c trend
  = filter (fun e => (fst (fst e) =? c)%string) trend.
Proof. unfold group. apply filter_ext. intros e. apply key_eqb_string. Qed.

Lemma constructors_keys {t} (df : DataFrame t) (c : string) :
  In c (group_keys (fun e : (string * Z) * value t => fst (fst e)) (cons_trend_all df))
  <-> In c (group_keys constructor df).
Proof.
  rewrite !group_keys_In. split.
  - intros [[[c' y] v] [I E]]. simpl in E. subst c'.
    apply groupby_sum_entry in I. destruct I as [I _].
    apply group_keys_In in I. destruct I as [r [I E]].
    exists r. split; [exact I|]. now inversion E.
  - intros [r [I E]].
    exists ((c, year r),
            group_sum (map points
                         (group (fun r => (constructor r, year r)) (c, year r) df))).
    split; [|reflexivity].
    apply groupby_sum_entry. split; [|reflexivity].
    apply group_keys_In. exists r. split; [exact I|]. now rewrite E.
Qed.

Lemma top_constructors_Ok {t} (df : DataFrame t) :
  df <> [] ->
  top_constructors df
  = Ok (index (nlargest below 6 (constructor_points (cons_trend_all df)))).
Proof. intros N. unfold top_constructors. now rewrite (numeric_dtype_rows df N). Qed.

Lemma top_constructors_rows {t} (df : DataFrame t) (top : list string) :
  top_constructors df = Ok top ->
  df <> [] /\ top = index (nlargest below 6 (constructor_points (cons_trend_all df))).
Proof.
  unfold top_constructors. destruct df as [|r df]; [discriminate|].
  simpl. intros [= <-]. split; [discriminate | reflexivity].
Qed.

Lemma top_constructors_keys {t} (df : DataFrame t) (top : list string) (c : string) :
  top_constructors df = Ok top -> In c top -> In c (group_keys constructor df).
Proof.
  intros T I. apply top_constructors_rows in T. destruct T as [_ ->].
  apply index_In in I. destruct I as [v I].
  apply nlargest_entries in I. unfold constructor_points in I.
  apply groupby_sum_entry in I. now apply constructors_keys.
Qed.



(** X4.  On a data set with rows, of either dtype, [top_constructors]
    holds [min 6 n] constructors, [n] the number of constructors of the
    data, each only once and each a constructor of the data; no
    constructor left out has a larger total, the column's sum of its
    season totals, than one selected; and [cons_trend] keeps the season
    totals of the selected constructors and no other. *)
Theorem top_constructors_selection {t} (df : DataFrame t) :
  df <> [] ->
  exists top trend,
    top_constructors df = Ok top /\
    cons_trend df = Ok trend /\
    length top = Nat.min 6 (length (group_keys constructor df)) /\
    NoDup top /\
    (forall c, In c top -> exists r, In r df /\ constructor r = c) /\
    (forall c c' r', In c top ->
       In r' df -> constructor r' = c' -> ~ In c' top ->
       below
         (group_sum (map snd (filter (fun e => (fst (fst e) =? c')%string)
                                (cons_trend_all df))))
         (group_sum (map snd (filter (fun e => (fst (fst e) =? c)%string)
                                (cons_trend_all df))))
       = true) /\
    (forall e, In e trend <-> In e (cons_trend_all df) /\ In (fst (fst e)) top).
Proof.
  intros Rows.
  exists (index (nlargest below 6 (constructor_points (cons_trend_all df)))),
         (filter (fun e => isin (index (nlargest below 6
                                          (constructor_points (cons_trend_all df))))
                                (fst (fst e)))
                 (cons_trend_all df)).
  assert (T := top_constructors_Ok df Rows).
  assert (N : NoDup (index (constructor_points (cons_trend_all df))))
    by (unfold constructor_points; rewrite groupby_sum_keys; apply group_keys_NoDup).
  destruct (nlargest_labels below below_total below_trans 6 _ N) as [ND L].
  split; [exact T|]. split; [unfold cons_trend; now rewrite T|].
  split; [|split; [exact ND|split; [|split]]].
  - unfold index. rewrite length_map, nlargest_count. f_equal.
    unfold constructor_points, groupby_sum. rewrite length_map.
    apply Nat.le_antisymm; apply NoDup_incl_length;
      try apply group_keys_NoDup; intros c I; now apply constructors_keys.
  - intros c I. apply (top_constructors_keys df _ c T) in I.
    now apply group_keys_In in I.
  - intros c c' r' I Ir E O.
    apply index_In in I. destruct I as [v I].
    assert (Iv := nlargest_entries below _ _ _ I).
    apply groupby_sum_entry in Iv. destruct Iv as [_ Ev].
    rewrite <- !group_of_constructor, <- Ev.
    apply (L c v c' _ I); [|exact O].
    apply groupby_sum_entry. split; [|reflexivity].
    apply constructors_keys, group_keys_In. now exists r'.
  - intros e. now rewrite filter_In, isin_true.
Qed.

Lemma top_constructors_selection_witness :
  exists top trend,
    top_constructors (sample_machine float64) = Ok top /\
    cons_trend (sample_machine float64) = Ok trend /\
    length top = 3%nat.
Proof.
  destruct (top_constructors_selection (sample_machine float64))
    as [top [trend [T [C [L _]]]]]; [discriminate|].
  exists top, trend. split; [exact T|]. split; [exact C | exact L].
Defined.

(** ** X5: nothing is lost in a grouping *)


End MachineFacts.

